(** * ai-nft-generator: the creation pipeline of [src/App.js]

    A shallow embedding of the React component [App] (first listing of
    [src/App.js]) and of [scripts/deploy.js].

    - JavaScript strings are sequences of UTF-16 code units ([list N]).
    - Asynchronous functions are programs of a small resumption monad
      [Prog]: state setters and console output are [Effect]s, every
      [await] on the outside world is an [Await] node whose continuation
      receives the settled promise.  [throw] / [try ... catch] are part of
      the monad.
    - A run of a handler against a [World] (one settled promise per
      request) gives a trace of [Event]s and an outcome.
    - The component itself is a reactive machine: React state, the list of
      suspended handlers, and the inputs the browser delivers (typing,
      form submission, promise settlement). *)

From Stdlib Require Import List NArith ZArith String Ascii Bool Lia Sorted.
Import ListNotations.

Set Implicit Arguments.

(* ================================================================== *)
(** ** JavaScript strings and values *)

Module JS.

(** A string is its sequence of UTF-16 code units. *)
Definition jsstring : Type := list N.

(** An ASCII literal of the source. *)
Definition js (s : string) : jsstring :=
  map N_of_ascii (list_ascii_of_string s).
Arguments js s%_string.

(** [a === b] on strings. *)
Fixpoint strict_eq (a b : jsstring) : bool :=
  match a, b with
  | [], [] => true
  | x :: a', y :: b' => N.eqb x y && strict_eq a' b'
  | _, _ => false
  end.

(** [s.length] *)
Definition strlen (s : jsstring) : nat := List.length s.

(** WhiteSpace and LineTerminator code points of ECMAScript, the ones
    [String.prototype.trim] strips. *)
Definition is_space (c : N) : bool :=
  match c with
  | 9 | 10 | 11 | 12 | 13 | 32 | 160 | 5760 | 8232 | 8233 | 8239 | 8287
  | 12288 | 65279 => true
  | _ => (8192 <=? c) && (c <=? 8202)
  end%N.

Fixpoint trimStart (s : jsstring) : jsstring :=
  match s with
  | [] => []
  | c :: r => if is_space c then trimStart r else s
  end.

Definition trimEnd (s : jsstring) : jsstring := rev (trimStart (rev s)).

Definition trim (s : jsstring) : jsstring := trimEnd (trimStart s).

(** The values that flow through [url], [tokenURI] and the [IpfsHash]
    field of a response. *)
Inductive jsval : Type :=
| JUndefined
| JNull
| JStr (s : jsstring).

(** ToString, as applied by a template literal [`${v}`]. *)
Definition toString (v : jsval) : jsstring :=
  match v with
  | JUndefined => js "undefined"
  | JNull => js "null"
  | JStr s => s
  end.

(** An [Error] object; only its message is observed. *)
Record JsError : Type := mkError { err_message : jsstring }.

(** The message V8 gives to the TypeError of a property read on [null]
    or [undefined]. *)
Definition nullish_read (nullish prop : jsstring) : JsError :=
  mkError (js "Cannot read properties of " ++ nullish ++ js " (reading '"
           ++ prop ++ js "')").

(** *** JSON.stringify on strings (QuoteJSONString) *)

Definition hex_digit (n : N) : N :=
  (if n <? 10 then 48 + n else 87 + n)%N.

(** [\uXXXX] with lower-case hexadecimal digits. *)
Definition unicode_escape (c : N) : jsstring :=
  [92; 117; hex_digit ((c / 4096) mod 16); hex_digit ((c / 256) mod 16);
   hex_digit ((c / 16) mod 16); hex_digit (c mod 16)]%N.

Definition is_high_surrogate (c : N) : bool := ((55296 <=? c) && (c <=? 56319))%N.
Definition is_low_surrogate (c : N) : bool := ((56320 <=? c) && (c <=? 57343))%N.

(** One code unit that is not part of a surrogate pair. *)
Definition quote_unit (c : N) : jsstring :=
  match c with
  | 8 => js "\b"
  | 9 => js "\t"
  | 10 => js "\n"
  | 12 => js "\f"
  | 13 => js "\r"
  | 34 => [92; 34]
  | 92 => [92; 92]
  | _ => if (c <? 32) || is_high_surrogate c || is_low_surrogate c
         then unicode_escape c else [c]
  end%N.

(** The string is read by code points: a high surrogate followed by a
    low one is a pair and is copied; a lone surrogate is escaped. *)
Fixpoint quote_body (s : jsstring) : jsstring :=
  match s with
  | [] => []
  | c :: r =>
      match r with
      | d :: r' =>
          if is_high_surrogate c && is_low_surrogate d
          then c :: d :: quote_body r'
          else quote_unit c ++ quote_body r
      | [] => quote_unit c
      end
  end.

Definition QuoteJSONString (s : jsstring) : jsstring :=
  [34%N] ++ quote_body s ++ [34%N].

(** *** Reading a JSON string back (ECMA-404)

    The receiving side of [QuoteJSONString]: used only to check that what
    the serializer writes denotes the string it was given. *)

Definition hex_value (c : N) : option N :=
  (if (48 <=? c) && (c <=? 57) then Some (c - 48)
   else if (97 <=? c) && (c <=? 102) then Some (c - 87)
   else if (65 <=? c) && (c <=? 70) then Some (c - 55)
   else None)%N.

Definition consume (c : N) (r : option (jsstring * jsstring))
  : option (jsstring * jsstring) :=
  match r with
  | Some (s, rest) => Some (c :: s, rest)
  | None => None
  end.

(** Reads up to the closing quote: the string denoted and what follows. *)
Fixpoint parse_body (s : jsstring) : option (jsstring * jsstring) :=
  match s with
  | [] => None
  | c :: r =>
      if c =? 34 then Some ([], r)
      else if c =? 92 then
        match r with
        | [] => None
        | e :: r1 =>
            if e =? 98 then consume 8 (parse_body r1)
            else if e =? 116 then consume 9 (parse_body r1)
            else if e =? 110 then consume 10 (parse_body r1)
            else if e =? 102 then consume 12 (parse_body r1)
            else if e =? 114 then consume 13 (parse_body r1)
            else if (e =? 34) || (e =? 92) || (e =? 47) then consume e (parse_body r1)
            else if e =? 117 then
              match r1 with
              | a :: b :: c' :: d :: r2 =>
                  match hex_value a, hex_value b, hex_value c', hex_value d with
                  | Some x3, Some x2, Some x1, Some x0 =>
                      consume (4096 * x3 + 256 * x2 + 16 * x1 + x0) (parse_body r2)
                  | _, _, _, _ => None
                  end
              | _ => None
              end
            else None
        end
      else if c <? 32 then None
      else consume c (parse_body r)
  end%N.

Definition parse_string (s : jsstring) : option (jsstring * jsstring) :=
  match s with
  | 34%N :: r => parse_body r
  | _ => None
  end.

End JS.
Import JS.

(* ================================================================== *)
(** ** ethers: [parseUnits] *)

Module Ethers.

(** The unit names of ethers, three decimals apart. *)
Definition unit_names : list string :=
  ["wei"; "kwei"; "mwei"; "gwei"; "szabo"; "finney"; "ether"]%string.

Fixpoint index_of (u : string) (l : list string) : option nat :=
  match l with
  | [] => None
  | x :: r => if String.eqb u x then Some 0
              else option_map S (index_of u r)
  end.

Definition decimals_of (u : string) : option nat :=
  option_map (fun i => 3 * i) (index_of u unit_names).

Definition digit_of (a : ascii) : option Z :=
  let n := Z.of_N (N_of_ascii a) in
  if (48 <=? n)%Z && (n <=? 57)%Z then Some (n - 48)%Z else None.

(** Reads digits up to an optional point; [acc] is the value so far. *)
Fixpoint read_digits (s : string) (acc : Z) : option (Z * string) :=
  match s with
  | EmptyString => Some (acc, EmptyString)
  | String a r =>
      if Ascii.eqb a "."%char then Some (acc, r)
      else match digit_of a with
           | Some d => read_digits r (10 * acc + d)
           | None => None
           end
  end.

(** The fraction, padded on the right to [dec] digits; more digits than
    [dec] is an error. *)
Fixpoint read_fraction (s : string) (dec : nat) (acc : Z) : option Z :=
  match s with
  | EmptyString => Some (acc * 10 ^ Z.of_nat dec)%Z
  | String a r =>
      match dec, digit_of a with
      | S dec', Some d => read_fraction r dec' (10 * acc + d)
      | _, _ => None
      end
  end.

(** [parseUnits(value, unit)] on an unsigned decimal string: the amount
    in the smallest unit, [None] where ethers throws. *)
Definition parseUnits (value unit : string) : option Z :=
  match value, decimals_of unit with
  | EmptyString, _ => None
  | _, None => None
  | _, Some dec =>
      match read_digits value 0 with
      | Some (whole, frac) => read_fraction frac dec whole
      | None => None
      end
  end.

End Ethers.

(* ================================================================== *)
(** ** Data of the pipeline *)

(** Binary data with its MIME type. *)
Record Blob : Type := mkBlob { blob_bytes : list N; blob_type : jsstring }.

Record File : Type :=
  mkFile { file_bytes : list N; file_name : jsstring; file_type : jsstring }.

(** [new File([part], name, { type })]: a Blob part contributes its bytes;
    [undefined] is converted to the string "undefined". *)
Definition newFile (part : option Blob) (name type : jsstring) : File :=
  {| file_bytes := match part with
                   | Some b => blob_bytes b
                   | None => js "undefined"
                   end;
     file_name := name;
     file_type := type |}.

(** The metadata JSON of a token. *)
Record Metadata : Type :=
  mkMetadata { md_name : jsstring; md_description : jsstring;
               md_image : jsstring; md_attributes : list jsval }.

(** What [uploadImageToPinata] returns. *)
Record UploadResult : Type :=
  mkUploadResult { imageUrl : jsstring; metadataUrl : jsstring;
                   imageHash : jsval; metadataHash : jsval }.

(** The object passed to [query]. *)
Record QueryData : Type := mkQuery { inputs : jsstring }.

(** [JSON.stringify(data)] for the object [{ inputs }]. *)
Definition JSON_stringify (data : QueryData) : jsstring :=
  js "{" ++ QuoteJSONString (js "inputs") ++ js ":"
     ++ QuoteJSONString (inputs data) ++ js "}".

(** Reads [{"inputs":"..."}] back. *)
Definition parse_query (body : jsstring) : option QueryData :=
  match body with
  | 123%N :: r =>
      match parse_string r with
      | Some (key, 58%N :: r1) =>
          if strict_eq key (js "inputs") then
            match parse_string r1 with
            | Some (v, [125%N]) => Some {| inputs := v |}
            | _ => None
            end
          else None
      | _ => None
      end
  | _ => None
  end.

(** The head of a fetch response. *)
Record HttpResponse : Type := mkResponse { status : N }.

(** [res.data] of an axios response: [null], [undefined], or a value whose
    [IpfsHash] property reads as the given value ([JUndefined] when the
    property is missing). *)
Inductive AxiosData : Type :=
| DataNull
| DataUndefined
| DataObj (IpfsHash : jsval).

(** Wallet-side objects, opaque to the pipeline. *)
Inductive Provider : Type := BrowserProvider (chain : N).
Record Signer : Type := mkSigner { signer_address : jsstring }.
Record Contract : Type := mkContract { contract_address : jsstring }.
Record Transaction : Type := mkTx { tx_hash : jsstring }.

(** [process.env], fixed when the bundle is built. *)
Record ProcessEnv : Type :=
  mkEnv { REACT_APP_PINATA_JWT : option jsstring;
          REACT_APP_HUGGING_FACE_API_KEY : option jsstring }.

Definition env_value (v : option jsstring) : jsval :=
  match v with Some s => JStr s | None => JUndefined end.

(** The React state of [App]. *)
Record AppState : Type :=
  mkState { provider : option Provider;
            account : option jsstring;
            name : jsstring;
            description : jsstring;
            isWaiting : bool;
            image : option Blob;   (* the blob whose data URL is shown *)
            message : jsstring;
            url : jsval;
            nft : option Contract }.

Definition initialState : AppState :=
  {| provider := None; account := None; name := js ""; description := js "";
     isWaiting := false; image := None; message := js ""; url := JNull;
     nft := None |}.

(* ================================================================== *)
(** ** Requests, effects and the resumption monad *)

(** A settled promise. *)
Inductive Settled (X : Type) : Type :=
| Rejected (e : JsError)
| Fulfilled (x : X).
Arguments Rejected {X} e.
Arguments Fulfilled {X} x.

(** Every [await] of the source on the outside world.  A request is the
    call as the source makes it; what the callee does with it (encoding,
    sending, retrying) belongs to the world that answers. *)
Inductive Request : Type :=
| Fetch (authorization body : jsstring)            (* fetch(url, { headers, method: "POST", body }) *)
| ReadBlob (response : HttpResponse)               (* response.blob() *)
| PinFile (authorization : jsstring) (file : File) (* axios.post(pinFileToIPFS, formData, ...) *)
| PinJSON (authorization : jsstring) (doc : Metadata) (* axios.post(pinJSONToIPFS, metadata, ...) *)
| GetSigner (p : Provider)                         (* provider.getSigner() *)
| Mint (c : Contract) (s : Signer) (tokenURI : jsval) (value : Z)
                                                   (* nft.connect(signer).mint(tokenURI, { value }) *)
| Wait (tx : Transaction).                         (* transaction.wait() *)

Definition Resp (r : Request) : Type :=
  match r with
  | Fetch _ _ => Settled HttpResponse
  | ReadBlob _ => Settled Blob
  | PinFile _ _ => Settled AxiosData
  | PinJSON _ _ => Settled AxiosData
  | GetSigner _ => Settled Signer
  | Mint _ _ _ _ => Settled Transaction
  | Wait _ => Settled unit
  end.

Definition request_url (r : Request) : option jsstring :=
  match r with
  | Fetch _ _ =>
      Some (js "https://api-inference.huggingface.co/models/stabilityai/stable-diffusion-xl-base-1.0")
  | PinFile _ _ => Some (js "https://api.pinata.cloud/pinning/pinFileToIPFS")
  | PinJSON _ _ => Some (js "https://api.pinata.cloud/pinning/pinJSONToIPFS")
  | _ => None
  end.

Definition content_type (r : Request) : option jsstring :=
  match r with
  | Fetch _ _ => Some (js "application/json")
  | PinFile _ _ => Some (js "multipart/form-data")
  | PinJSON _ _ => Some (js "application/json")
  | _ => None
  end.

(** The HTTP calls among the requests. *)
Definition is_network_call (r : Request) : bool :=
  match r with
  | Fetch _ _ | ReadBlob _ | PinFile _ _ | PinJSON _ _ => true
  | _ => false
  end.

Inductive LogArg : Type :=
| LStr (s : jsstring)
| LErr (e : JsError)
| LResult (r : UploadResult).

(** Everything a handler does that is not an [await]. *)
Inductive Effect : Type :=
| PreventDefault
| SetIsWaiting (b : bool)
| SetMessage (m : jsstring)
| SetURL (v : jsval)
| ReadAsDataURL (b : Blob)        (* FileReader; its onloadend calls setImage *)
| ConsoleLog (args : list LogArg)
| ConsoleError (args : list LogArg)
| Alert (m : jsstring).

Inductive Prog (A : Type) : Type :=
| Ret (a : A)
| Throw (e : JsError)
| Do (e : Effect) (k : Prog A)
| Await (r : Request) (k : Resp r -> Prog A).
Arguments Ret {A} a.
Arguments Throw {A} e.
Arguments Do {A} e k.
Arguments Await {A} r k.

Fixpoint bind {A B : Type} (p : Prog A) (f : A -> Prog B) : Prog B :=
  match p with
  | Ret a => f a
  | Throw e => Throw e
  | Do e k => Do e (bind k f)
  | Await r k => Await r (fun x => bind (k x) f)
  end.

(** [try { p } catch (error) { h error }] *)
Fixpoint try_catch {A : Type} (p : Prog A) (h : JsError -> Prog A) : Prog A :=
  match p with
  | Ret a => Ret a
  | Throw e => h e
  | Do e k => Do e (try_catch k h)
  | Await r k => Await r (fun x => try_catch (k x) h)
  end.

Declare Scope prog_scope.
Delimit Scope prog_scope with prog.
Notation "x <- p ;; q" := (bind p (fun x => q))
  (at level 61, p at next level, right associativity) : prog_scope.
Notation "p ;; q" := (bind p (fun _ => q))
  (at level 61, right associativity) : prog_scope.
Open Scope prog_scope.

Definition perform (e : Effect) : Prog unit := Do e (Ret tt).

(** [await] on a promise: a rejection is thrown. *)
Definition settle {X : Type} (s : Settled X) : Prog X :=
  match s with
  | Rejected e => Throw e
  | Fulfilled x => Ret x
  end.

Definition await_fetch (authorization body : jsstring) : Prog HttpResponse :=
  Await (Fetch authorization body) settle.
Definition await_blob (response : HttpResponse) : Prog Blob :=
  Await (ReadBlob response) settle.
Definition await_pinFile (authorization : jsstring) (f : File) : Prog AxiosData :=
  Await (PinFile authorization f) settle.
Definition await_pinJSON (authorization : jsstring) (d : Metadata) : Prog AxiosData :=
  Await (PinJSON authorization d) settle.
Definition await_getSigner (p : Provider) : Prog Signer :=
  Await (GetSigner p) settle.
Definition await_mint (c : Contract) (s : Signer) (uri : jsval) (v : Z)
  : Prog Transaction :=
  Await (Mint c s uri v) settle.
Definition await_wait (tx : Transaction) : Prog unit :=
  Await (Wait tx) settle.

(* ================================================================== *)
(** ** scripts/deploy.js *)

Module Deploy.

Definition NAME : jsstring := js "AI Generated NFT".
Definition SYMBOL : jsstring := js "AINFT".
Definition COST : option Z := Ethers.parseUnits "1" "ether".

(** The arguments of [NFT.deploy(NAME, SYMBOL, COST)]. *)
Definition deploy_args : option (jsstring * jsstring * Z) :=
  option_map (fun cost => (NAME, SYMBOL, cost)) COST.

End Deploy.

(* ================================================================== *)
(** ** src/App.js: the handlers of [App] *)

Definition gateway : jsstring := js "https://gateway.pinata.cloud/ipfs/".

(** [`Bearer ${v}`] *)
Definition bearer (v : jsval) : jsstring := js "Bearer " ++ toString v.

(** [data.IpfsHash] *)
Definition read_IpfsHash (data : AxiosData) : Prog jsval :=
  match data with
  | DataNull => Throw (nullish_read (js "null") (js "IpfsHash"))
  | DataUndefined => Throw (nullish_read (js "undefined") (js "IpfsHash"))
  | DataObj h => Ret h
  end.

Section Handlers.

Variable env : ProcessEnv.
(** The state of the render whose handlers are running: the closures
    read [name], [description], [provider] and [nft] from it. *)
Variable st : AppState.

(** [process.env.REACT_APP_PINATA_JWT?.trim()], when it is truthy. *)
Definition pinataJWT : option jsstring :=
  match REACT_APP_PINATA_JWT env with
  | None => None
  | Some raw => match trim raw with
                | [] => None
                | c :: r => Some (c :: r)
                end
  end.

Definition uploadImageToPinata (imageData : option Blob)
           (name description : jsstring) : Prog UploadResult :=
  match pinataJWT with
  | None =>
      Throw (mkError (js "Pinata JWT token is missing from environment variables."))
  | Some jwt =>
      (* 1. First upload the image file *)
      let imageFile := newFile imageData (js "image.jpeg") (js "image/jpeg") in
      try_catch
        (perform (SetMessage (js "Uploading image to IPFS...")) ;;
         imageRes <- await_pinFile (bearer (JStr jwt)) imageFile ;;
         imageHash <- read_IpfsHash imageRes ;;
         let imageUrl := gateway ++ toString imageHash in
         (* 2. Create and upload metadata JSON *)
         let metadata :=
           {| md_name := name; md_description := description;
              md_image := imageUrl; md_attributes := [] |} in
         perform (SetMessage (js "Uploading metadata...")) ;;
         metadataRes <- await_pinJSON (bearer (JStr jwt)) metadata ;;
         metadataHash <- read_IpfsHash metadataRes ;;
         let metadataUrl := gateway ++ toString metadataHash in
         perform (SetMessage (js "Upload complete!")) ;;
         perform (SetURL (JStr metadataUrl)) ;;
         Ret {| imageUrl := imageUrl; metadataUrl := metadataUrl;
                imageHash := imageHash; metadataHash := metadataHash |})
        (fun error =>
           perform (ConsoleError [LStr (js "Pinata upload error:"); LErr error]) ;;
           perform (SetMessage (js "Upload failed. See console for details.")) ;;
           Throw (mkError (js "Failed to upload to Pinata: " ++ err_message error)))
  end.

Definition query (data : QueryData) : Prog Blob :=
  response <- await_fetch
                (bearer (env_value (REACT_APP_HUGGING_FACE_API_KEY env)))
                (JSON_stringify data) ;;
  result <- await_blob response ;;
  Ret result.

(** Returns the blob, or [undefined] ([None]) when the call threw. *)
Definition createImage : Prog (option Blob) :=
  perform (SetMessage (js "Generating Image...")) ;;
  try_catch
    (response <- query {| inputs := js "`" ++ description st ++ js "`" |} ;;
     perform (ReadAsDataURL response) ;;
     Ret (Some response))
    (fun error =>
       perform (ConsoleError [LStr (js "Error generating image:"); LErr error]) ;;
       perform (SetMessage (js "Failed to generate image. Please try again.")) ;;
       perform (SetIsWaiting false) ;;
       Ret None).

(** Returns [result.metadataUrl], or [undefined] when the upload threw. *)
Definition handleUpload (imageBlob : option Blob) : Prog jsval :=
  try_catch
    (result <- uploadImageToPinata imageBlob (name st) (description st) ;;
     perform (ConsoleLog [LStr (js "Upload result:"); LResult result]) ;;
     Ret (JStr (metadataUrl result)))
    (fun err =>
       perform (ConsoleError [LErr err]) ;;
       Ret JUndefined).

Definition mintImage (tokenURI : jsval) : Prog unit :=
  perform (SetMessage (js "Waiting for Mint...")) ;;
  signer <- match provider st with
            | None => Throw (nullish_read (js "null") (js "getSigner"))
            | Some p => await_getSigner p
            end ;;
  transaction <- match nft st with
                 | None => Throw (nullish_read (js "null") (js "connect"))
                 | Some c =>
                     match Ethers.parseUnits "1" "ether" with
                     | Some value => await_mint c signer tokenURI value
                     | None => Throw (mkError (js "invalid FixedNumber string value"))
                     end
                 end ;;
  await_wait transaction.

Definition submitHandler : Prog unit :=
  perform PreventDefault ;;
  perform (ConsoleLog [LStr (js "NAME => "); LStr (name st)]) ;;
  perform (ConsoleLog [LStr (js "DESCRIPTION => "); LStr (description st)]) ;;
  if strict_eq (name st) (js "") || strict_eq (description st) (js "")
  then perform (Alert (js "Please provide a name and description"))
  else
    perform (SetIsWaiting true) ;;
    (* Call AI API to generate a image based on description *)
    imageData <- createImage ;;
    (* Upload image to IPFS *)
    url <- handleUpload imageData ;;
    perform (SetURL url) ;;
    (* Mint NFT *)
    mintImage url ;;
    perform (SetIsWaiting false) ;;
    perform (SetMessage (js "")).

End Handlers.

(* ================================================================== *)
(** ** Running one handler against a world *)

(** How each promise of a run settles. *)
Record World : Type :=
  mkWorld { on_fetch : Settled HttpResponse;
            on_blob : Settled Blob;
            on_pinFile : Settled AxiosData;
            on_pinJSON : Settled AxiosData;
            on_getSigner : Settled Signer;
            on_mint : Settled Transaction;
            on_wait : Settled unit }.

Definition respond (w : World) (r : Request) : Resp r :=
  match r return Resp r with
  | Fetch _ _ => on_fetch w
  | ReadBlob _ => on_blob w
  | PinFile _ _ => on_pinFile w
  | PinJSON _ _ => on_pinJSON w
  | GetSigner _ => on_getSigner w
  | Mint _ _ _ _ => on_mint w
  | Wait _ => on_wait w
  end.

Inductive Field : Type := NameField | DescriptionField.
Inductive Validity : Type := ValueMissing | TooShort | TooLong.

Inductive Event : Type :=
| Eff (e : Effect)                      (* an effect of a handler *)
| Req (r : Request)                     (* a request is issued *)
| Uncaught (e : JsError)                (* a handler's promise rejects, nobody catches *)
| Invalid (f : Field) (v : Validity).   (* the browser reports an invalid control *)

Inductive Outcome (A : Type) : Type :=
| Returned (a : A)
| Thrown (e : JsError).
Arguments Returned {A} a.
Arguments Thrown {A} e.

(** The trace and the outcome of a program when every request is answered
    by [o]. *)
Fixpoint exec {A : Type} (o : forall r, Resp r) (p : Prog A)
  : list Event * Outcome A :=
  match p with
  | Ret a => ([], Returned a)
  | Throw e => ([], Thrown e)
  | Do e k => let (t, out) := exec o k in (Eff e :: t, out)
  | Await r k => let (t, out) := exec o (k (o r)) in (Req r :: t, out)
  end.

Definition run {A : Type} (w : World) (p : Prog A) : list Event * Outcome A :=
  exec (respond w) p.

Definition trace {A : Type} (w : World) (p : Prog A) : list Event :=
  fst (run w p).

Definition outcome {A : Type} (w : World) (p : Prog A) : Outcome A :=
  snd (run w p).

(** The requests of a trace, in order. *)
Fixpoint requests (t : list Event) : list Request :=
  match t with
  | [] => []
  | Req r :: t' => r :: requests t'
  | _ :: t' => requests t'
  end.

Definition is_upload (r : Request) : bool :=
  match r with PinFile _ _ | PinJSON _ _ => true | _ => false end.

Definition is_mint (r : Request) : bool :=
  match r with Mint _ _ _ _ => true | _ => false end.

Definition is_fetch (r : Request) : bool :=
  match r with Fetch _ _ => true | _ => false end.

(* ================================================================== *)
(** ** The component as a reactive machine *)

(** The state setters. *)
Definition set (e : Effect) (a : AppState) : AppState :=
  match e with
  | SetIsWaiting b =>
      {| provider := provider a; account := account a; name := name a;
         description := description a; isWaiting := b; image := image a;
         message := message a; url := url a; nft := nft a |}
  | SetMessage m =>
      {| provider := provider a; account := account a; name := name a;
         description := description a; isWaiting := isWaiting a;
         image := image a; message := m; url := url a; nft := nft a |}
  | SetURL v =>
      {| provider := provider a; account := account a; name := name a;
         description := description a; isWaiting := isWaiting a;
         image := image a; message := message a; url := v; nft := nft a |}
  | _ => a
  end.

Definition setName (v : jsstring) (a : AppState) : AppState :=
  {| provider := provider a; account := account a; name := v;
     description := description a; isWaiting := isWaiting a; image := image a;
     message := message a; url := url a; nft := nft a |}.

Definition setDescription (v : jsstring) (a : AppState) : AppState :=
  {| provider := provider a; account := account a; name := name a;
     description := v; isWaiting := isWaiting a; image := image a;
     message := message a; url := url a; nft := nft a |}.

Definition setImage (b : Blob) (a : AppState) : AppState :=
  {| provider := provider a; account := account a; name := name a;
     description := description a; isWaiting := isWaiting a; image := Some b;
     message := message a; url := url a; nft := nft a |}.

(** A handler parked at an [await]. *)
Record Suspended : Type :=
  mkSuspended { pending : Request; resume : Resp pending -> Prog unit }.

(** For each of the two controls, whether its value was last changed by
    a user edit (as opposed to never, or by a script): the browser checks
    the length of a value only in that case. *)
Record Edited : Type :=
  mkEdited { name_edited : bool; description_edited : bool }.

Record Config : Type :=
  mkConfig { ui : AppState;               (* React state *)
             inflight : list Suspended;   (* handlers waiting for a promise *)
             readers : list Blob;         (* FileReaders still loading *)
             edited : Edited }.           (* how the controls got their values *)

Definition initialConfig : Config :=
  {| ui := initialState; inflight := []; readers := [];
     edited := {| name_edited := false; description_edited := false |} |}.

Definition start_reader (e : Effect) (rd : list Blob) : list Blob :=
  match e with
  | ReadAsDataURL b => rd ++ [b]
  | _ => rd
  end.

(** Runs a handler up to its next [await] (or to its end). *)
Fixpoint drive (p : Prog unit) (a : AppState) (rd : list Blob)
  : AppState * list Blob * list Event * option Suspended :=
  match p with
  | Ret _ => (a, rd, [], None)
  | Throw e => (a, rd, [Uncaught e], None)
  | Do e k =>
      let '(a', rd', t, s) := drive k (set e a) (start_reader e rd) in
      (a', rd', Eff e :: t, s)
  | Await r k => (a, rd, [Req r], Some {| pending := r; resume := k |})
  end.

(** The attributes of a form control that take part in constraint
    validation. *)
Record Constraints : Type :=
  mkConstraints { required : bool; minLength : nat; maxLength : nat }.

(** What the JSX of a listing fixes about the form: the constraints of the
    two controls ([None]: the control carries none) and whether the submit
    control is disabled while [isWaiting]. *)
Record Form : Type :=
  mkForm { name_control : option Constraints;
           description_control : option Constraints;
           disabled_while_waiting : bool }.

(** [<input id="nft-name" required minLength={3} maxLength={30} />] *)
Definition nft_name : Constraints :=
  {| required := true; minLength := 3; maxLength := 30 |}.

(** [<textarea id="nft-description" required minLength={10} maxLength={150} />] *)
Definition nft_description : Constraints :=
  {| required := true; minLength := 10; maxLength := 150 |}.

(** The form of the first listing of [App.js]:
    [<button type="submit" disabled={isWaiting}>]. *)
Definition form : Form :=
  {| name_control := Some nft_name;
     description_control := Some nft_description;
     disabled_while_waiting := true |}.

(** The form of the second listing: two bare text inputs and
    [<input type="submit" value="Create & Mint" />]. *)
Definition bare_form : Form :=
  {| name_control := None; description_control := None;
     disabled_while_waiting := false |}.

(** Constraint validation of a text control (HTML, "constraint
    validation").  [required] rejects the empty value however it got
    there.  [minLength] and [maxLength] are checked only when the value was
    last changed by a user edit ([by_user]); lengths are counted in UTF-16
    code units, and [minLength] does not apply to the empty value.  A user
    agent that stops typing at [maxLength] never lets a user edit produce a
    longer value; one that does not reports it as too long. *)
Definition validate (c : Constraints) (by_user : bool) (v : jsstring)
  : option Validity :=
  if required c && (strlen v =? 0) then Some ValueMissing
  else if by_user && (0 <? strlen v) && (strlen v <? minLength c)
       then Some TooShort
  else if by_user && (maxLength c <? strlen v) then Some TooLong
  else None.

Definition validate_control (c : option Constraints) (by_user : bool)
           (v : jsstring) : option Validity :=
  match c with
  | Some c => validate c by_user v
  | None => None
  end.

(** The first invalid control of the form, in tree order. *)
Definition form_validity (F : Form) (ed : Edited) (a : AppState)
  : option (Field * Validity) :=
  match validate_control (name_control F) (name_edited ed) (name a) with
  | Some v => Some (NameField, v)
  | None =>
      match validate_control (description_control F) (description_edited ed)
                             (description a) with
      | Some v => Some (DescriptionField, v)
      | None => None
      end
  end.

Definition button_disabled (F : Form) (a : AppState) : bool :=
  disabled_while_waiting F && isWaiting a.

Definition park (s : option Suspended) : list Suspended :=
  match s with Some x => [x] | None => [] end.

(** A submission of the form: nothing happens while the submit control is
    disabled; an invalid control is reported and no submit event is fired;
    otherwise [onSubmit] runs the handler of the current render. *)
Definition submit (F : Form) (env : ProcessEnv) (c : Config)
  : Config * list Event :=
  if button_disabled F (ui c) then (c, [])
  else
    match form_validity F (edited c) (ui c) with
    | Some (f, v) => (c, [Invalid f v])
    | None =>
        let '(a, rd, t, s) := drive (submitHandler env (ui c)) (ui c) (readers c) in
        ({| ui := a; inflight := inflight c ++ park s; readers := rd;
            edited := edited c |}, t)
    end.

(** The promise the [i]-th suspended handler waits for settles. *)
Definition settle_at (i : nat) (w : World) (c : Config) : Config * list Event :=
  match nth_error (inflight c) i with
  | None => (c, [])
  | Some s =>
      let '(a, rd, t, s') :=
        drive (resume s (respond w (pending s))) (ui c) (readers c) in
      ({| ui := a;
          inflight := firstn i (inflight c) ++ park s' ++ skipn (S i) (inflight c);
          readers := rd; edited := edited c |}, t)
  end.

(** [reader.onloadend] of the [i]-th reader. *)
Definition loaded (i : nat) (c : Config) : Config * list Event :=
  match nth_error (readers c) i with
  | None => (c, [])
  | Some b =>
      ({| ui := setImage b (ui c); inflight := inflight c;
          readers := firstn i (readers c) ++ skipn (S i) (readers c);
          edited := edited c |}, [])
  end.

Inductive Input : Type :=
| TypeName (v : jsstring)          (* the user edits #nft-name: onChange *)
| TypeDescription (v : jsstring)   (* the user edits #nft-description: onChange *)
| Submit                           (* the form is submitted *)
| Settle (i : nat) (w : World)
| Loaded (i : nat)
| FillName (v : jsstring)          (* a script sets the value of #nft-name and
                                      dispatches the input event: onChange *)
| FillDescription (v : jsstring).  (* the same for #nft-description *)

Definition step (F : Form) (env : ProcessEnv) (c : Config) (i : Input)
  : Config * list Event :=
  match i with
  | TypeName v =>
      ({| ui := setName v (ui c); inflight := inflight c; readers := readers c;
          edited := {| name_edited := true;
                       description_edited := description_edited (edited c) |} |},
       [])
  | TypeDescription v =>
      ({| ui := setDescription v (ui c); inflight := inflight c;
          readers := readers c;
          edited := {| name_edited := name_edited (edited c);
                       description_edited := true |} |}, [])
  | Submit => submit F env c
  | Settle k w => settle_at k w c
  | Loaded k => loaded k c
  | FillName v =>
      ({| ui := setName v (ui c); inflight := inflight c; readers := readers c;
          edited := {| name_edited := false;
                       description_edited := description_edited (edited c) |} |},
       [])
  | FillDescription v =>
      ({| ui := setDescription v (ui c); inflight := inflight c;
          readers := readers c;
          edited := {| name_edited := name_edited (edited c);
                       description_edited := false |} |}, [])
  end.

(** A session: the inputs in order, with everything that was emitted. *)
Fixpoint steps (F : Form) (env : ProcessEnv) (c : Config) (l : list Input)
  : Config * list Event :=
  match l with
  | [] => (c, [])
  | i :: l' =>
      let (c1, t1) := step F env c i in
      let (c2, t2) := steps F env c1 l' in
      (c2, t1 ++ t2)
  end.

(** What the machine emits when a handler ends: nothing if it returned,
    the unhandled rejection if it threw. *)
Definition uncaught {A : Type} (o : Outcome A) : list Event :=
  match o with
  | Returned _ => []
  | Thrown e => [Uncaught e]
  end.

(** A run is in flight while one of its handlers is parked at an await. *)
Definition in_flight (c : Config) : bool :=
  match inflight c with [] => false | _ :: _ => true end.

(** No handler is left to release the slot, and the slot is taken. *)
Definition stuck (c : Config) : Prop :=
  inflight c = [] /\ isWaiting (ui c) = true.

(* ================================================================== *)
(** ** What each stage sends and yields *)

Section Stages.

Variables (env : ProcessEnv) (st : AppState).

(** The request of [query] as [createImage] calls it. *)
Definition generation_request : Request :=
  Fetch (bearer (env_value (REACT_APP_HUGGING_FACE_API_KEY env)))
        (JSON_stringify {| inputs := js "`" ++ description st ++ js "`" |}).

(** The file [uploadImageToPinata] builds from the image data. *)
Definition image_file (img : option Blob) : File :=
  newFile img (js "image.jpeg") (js "image/jpeg").

(** The metadata document built from the hash of the image upload. *)
Definition metadata_for (h : jsval) : Metadata :=
  {| md_name := name st; md_description := description st;
     md_image := gateway ++ toString h; md_attributes := [] |}.

(** The effects of [submitHandler] before the first stage. *)
Definition prologue : list Event :=
  [Eff PreventDefault;
   Eff (ConsoleLog [LStr (js "NAME => "); LStr (name st)]);
   Eff (ConsoleLog [LStr (js "DESCRIPTION => "); LStr (description st)])].

(** The effects of [submitHandler] after [mintImage] has returned. *)
Definition epilogue (o : Outcome unit) : list Event :=
  match o with
  | Returned _ => [Eff (SetIsWaiting false); Eff (SetMessage (js ""))]
  | Thrown _ => []
  end.

(** [(await axios.post(...)).data.IpfsHash]: the error thrown, or the
    value read. *)
Definition hash_of (s : Settled AxiosData) : JsError + jsval :=
  match s with
  | Rejected e => inl e
  | Fulfilled DataNull => inl (nullish_read (js "null") (js "IpfsHash"))
  | Fulfilled DataUndefined => inl (nullish_read (js "undefined") (js "IpfsHash"))
  | Fulfilled (DataObj h) => inr h
  end.

(** An upload fails with [e]: the request is rejected with [e], or the
    body of the response is [null] or [undefined] and reading [IpfsHash]
    from it throws the TypeError [e]. *)
Definition upload_fails (s : Settled AxiosData) (e : JsError) : Prop :=
  s = Rejected e \/
  (s = Fulfilled DataNull /\ e = nullish_read (js "null") (js "IpfsHash")) \/
  (s = Fulfilled DataUndefined /\
   e = nullish_read (js "undefined") (js "IpfsHash")).

(** The error [uploadImageToPinata] throws from its catch block. *)
Definition upload_error (cause : JsError) : JsError :=
  mkError (js "Failed to upload to Pinata: " ++ err_message cause).

Definition missing_jwt : JsError :=
  mkError (js "Pinata JWT token is missing from environment variables.").

(** The catch block of [uploadImageToPinata], after the trace [t] of
    its try block. *)
Definition upload_failure (t : list Event) (cause : JsError)
  : list Event * Outcome UploadResult :=
  (t ++ [Eff (ConsoleError [LStr (js "Pinata upload error:"); LErr cause]);
         Eff (SetMessage (js "Upload failed. See console for details."))],
   Thrown (upload_error cause)).

Variable w : World.

(** What [createImage] returns. *)
Definition generated : option Blob :=
  match on_fetch w, on_blob w with
  | Fulfilled _, Fulfilled b => Some b
  | _, _ => None
  end.

(** What [handleUpload] returns. *)
Definition uploaded : jsval :=
  match pinataJWT env, hash_of (on_pinFile w), hash_of (on_pinJSON w) with
  | Some _, inr _, inr h => JStr (gateway ++ toString h)
  | _, _, _ => JUndefined
  end.

End Stages.

(** The payment attached to the mint, in wei. *)
Definition one_ether : Z := 1000000000000000000.

(* ================================================================== *)
(** ** Scenarios *)

Module Scenario.

Definition env : ProcessEnv :=
  {| REACT_APP_PINATA_JWT := Some (js " eyJhbGciOi ");
     REACT_APP_HUGGING_FACE_API_KEY := Some (js "hf_key") |}.

(** The same bundle built without the Pinata token. *)
Definition env_without_jwt : ProcessEnv :=
  {| REACT_APP_PINATA_JWT := None;
     REACT_APP_HUGGING_FACE_API_KEY := Some (js "hf_key") |}.

Definition contract : Contract := mkContract (js "0x5FbDB2315678afecb367f032d93F642f64180aa3").
Definition signer : Signer := mkSigner (js "0xf39Fd6e51aad88F6F4ce6aB8827279cffFb92266").

(** A connected session with the form filled in. *)
Definition filled : AppState :=
  {| provider := Some (BrowserProvider 31337);
     account := Some (signer_address signer);
     name := js "Cyber Lion";
     description := js "A futuristic lion with cybernetic enhancements.";
     isWaiting := false; image := None; message := js ""; url := JNull;
     nft := Some contract |}.

(** The user typed both fields. *)
Definition ready : Config :=
  {| ui := filled; inflight := []; readers := [];
     edited := {| name_edited := true; description_edited := true |} |}.

Definition jpeg : Blob := mkBlob [255; 216; 255; 224]%N (js "image/jpeg").
Definition tx : Transaction := mkTx (js "0x9c1d").

(** Every stage succeeds. *)
Definition happy : World :=
  {| on_fetch := Fulfilled (mkResponse 200);
     on_blob := Fulfilled jpeg;
     on_pinFile := Fulfilled (DataObj (JStr (js "Qm1mage")));
     on_pinJSON := Fulfilled (DataObj (JStr (js "Qmeta")));
     on_getSigner := Fulfilled signer;
     on_mint := Fulfilled tx;
     on_wait := Fulfilled tt |}.

(** The inference API answers 503 with an error body. *)
Definition unavailable : World :=
  {| on_fetch := Fulfilled (mkResponse 503);
     on_blob := Fulfilled (mkBlob (js "Service Unavailable") (js "text/plain"));
     on_pinFile := on_pinFile happy; on_pinJSON := on_pinJSON happy;
     on_getSigner := on_getSigner happy; on_mint := on_mint happy;
     on_wait := on_wait happy |}.

(** The inference request fails on the network. *)
Definition offline : World :=
  {| on_fetch := Rejected (mkError (js "Failed to fetch"));
     on_blob := on_blob happy;
     on_pinFile := on_pinFile happy; on_pinJSON := on_pinJSON happy;
     on_getSigner := on_getSigner happy; on_mint := on_mint happy;
     on_wait := on_wait happy |}.

(** The pinning API answers the image upload without an [IpfsHash]. *)
Definition hashless : World :=
  {| on_fetch := on_fetch happy; on_blob := on_blob happy;
     on_pinFile := Fulfilled (DataObj JUndefined);
     on_pinJSON := on_pinJSON happy;
     on_getSigner := on_getSigner happy; on_mint := on_mint happy;
     on_wait := on_wait happy |}.

(** The image upload is refused by the pinning API. *)
Definition unauthorized : World :=
  {| on_fetch := on_fetch happy; on_blob := on_blob happy;
     on_pinFile := Rejected (mkError (js "Request failed with status code 401"));
     on_pinJSON := on_pinJSON happy;
     on_getSigner := on_getSigner happy; on_mint := on_mint happy;
     on_wait := on_wait happy |}.

(** ethers refuses to encode a token URI that is not a string. *)
Definition uri_refused : World :=
  {| on_fetch := on_fetch happy; on_blob := on_blob happy;
     on_pinFile := on_pinFile happy; on_pinJSON := on_pinJSON happy;
     on_getSigner := on_getSigner happy;
     on_mint := Rejected (mkError (js "invalid string value"));
     on_wait := on_wait happy |}.

(** The user rejects the transaction in the wallet. *)
Definition rejected_in_wallet : World :=
  {| on_fetch := on_fetch happy; on_blob := on_blob happy;
     on_pinFile := on_pinFile happy; on_pinJSON := on_pinJSON happy;
     on_getSigner := on_getSigner happy;
     on_mint := Rejected (mkError (js "user rejected action"));
     on_wait := on_wait happy |}.

End Scenario.

(* ================================================================== *)
(** ** src/App.js: session bootstrap ([loadBlockchainData]) *)

Definition setProvider (p : Provider) (a : AppState) : AppState :=
  {| provider := Some p; account := account a; name := name a;
     description := description a; isWaiting := isWaiting a; image := image a;
     message := message a; url := url a; nft := nft a |}.

Definition setAccount (address : jsstring) (a : AppState) : AppState :=
  {| provider := provider a; account := Some address; name := name a;
     description := description a; isWaiting := isWaiting a; image := image a;
     message := message a; url := url a; nft := nft a |}.

Definition setNFT (c : Contract) (a : AppState) : AppState :=
  {| provider := provider a; account := account a; name := name a;
     description := description a; isWaiting := isWaiting a; image := image a;
     message := message a; url := url a; nft := Some c |}.

(** How the promises of the wallet settle while the page loads. *)
Record WalletWorld : Type :=
  mkWallet { on_signer : Settled Signer;     (* provider.getSigner() *)
             on_address : Settled jsstring;  (* signer.getAddress() *)
             on_network : Settled N }.       (* provider.getNetwork(), its chainId *)

Inductive LoadEvent : Type :=
| LoadAlert (m : jsstring)
| LoadSetProvider (p : Provider)
| LoadGetSigner (p : Provider)
| LoadGetAddress (s : Signer)
| LoadSetAccount (address : jsstring)
| LoadGetNetwork (p : Provider)
| LoadSetNFT (c : Contract).

(** [loadBlockchainData], run by the effect of the first render.
    [ethereum] is [window.ethereum] (the chain the injected wallet is on,
    when there is a wallet).  [config.json] is not among the sources: the
    table is the parameter [config], which gives
    [config[chainId].nft.address] for the chains it lists; for a chain it
    does not list, [config[chainId]] is [undefined] and reading [.nft]
    throws.  The result is the state after the function has run, what it
    did in order, and how its promise settled. *)
Definition loadBlockchainData (ethereum : option N)
           (config : N -> option jsstring) (wal : WalletWorld) (a : AppState)
  : AppState * list LoadEvent * Outcome unit :=
  match ethereum with
  | None => (a, [LoadAlert (js "Please install MetaMask")], Returned tt)
  | Some chain =>
      let provider := BrowserProvider chain in
      let a1 := setProvider provider a in
      match on_signer wal with
      | Rejected e =>
          (a1, [LoadSetProvider provider; LoadGetSigner provider], Thrown e)
      | Fulfilled signer =>
          match on_address wal with
          | Rejected e =>
              (a1, [LoadSetProvider provider; LoadGetSigner provider;
                    LoadGetAddress signer], Thrown e)
          | Fulfilled address =>
              let a2 := setAccount address a1 in
              match on_network wal with
              | Rejected e =>
                  (a2, [LoadSetProvider provider; LoadGetSigner provider;
                        LoadGetAddress signer; LoadSetAccount address;
                        LoadGetNetwork provider], Thrown e)
              | Fulfilled chainId =>
                  match config chainId with
                  | None =>
                      (a2, [LoadSetProvider provider; LoadGetSigner provider;
                            LoadGetAddress signer; LoadSetAccount address;
                            LoadGetNetwork provider],
                       Thrown (nullish_read (js "undefined") (js "nft")))
                  | Some target =>
                      let c := mkContract target in
                      (setNFT c a2,
                       [LoadSetProvider provider; LoadGetSigner provider;
                        LoadGetAddress signer; LoadSetAccount address;
                        LoadGetNetwork provider; LoadSetNFT c],
                       Returned tt)
                  end
              end
          end
      end
  end.

(* ================================================================== *)
(** ** src/App.js: what [App] renders (first listing) *)







(* ================================================================== *)
(** ** The state a trace leaves behind *)



(** The progress labels of a trace, in order. *)
Fixpoint messages (t : list Event) : list jsstring :=
  match t with
  | [] => []
  | Eff (SetMessage m) :: t' => m :: messages t'
  | _ :: t' => messages t'
  end.



(** The stage a request belongs to. *)
Definition stage_of (r : Request) : nat :=
  match r with
  | Fetch _ _ => 0
  | ReadBlob _ => 1
  | PinFile _ _ => 2
  | PinJSON _ _ => 3
  | GetSigner _ => 4
  | Mint _ _ _ _ => 5
  | Wait _ => 6
  end.




(* ================================================================== *)
(** ** scripts/deploy.js: [main] *)

Module Script.

(** How the promises of the deployment settle. *)
Record DeployWorld : Type :=
  mkDeployWorld { on_factory : Settled unit;     (* ethers.getContractFactory("NFT") *)
                  on_deploy : Settled unit;      (* NFT.deploy(NAME, SYMBOL, COST) *)
                  on_deployed : Settled unit;    (* nft.waitForDeployment() *)
                  on_getAddress : Settled jsstring }.  (* nft.getAddress() *)

Inductive ScriptEvent : Type :=
| GetContractFactory (contractName : jsstring)
| DeployCall (tokenName symbol : jsstring) (cost : Z)
| WaitForDeployment
| GetAddress
| Log (m : jsstring)
| LogError (e : JsError)
| SetExitCode (code : N).

Definition main (w : DeployWorld) : list ScriptEvent * Outcome unit :=
  match Deploy.COST with
  | None => ([], Thrown (mkError (js "invalid FixedNumber string value")))
  | Some cost =>
      match on_factory w with
      | Rejected e => ([GetContractFactory (js "NFT")], Thrown e)
      | Fulfilled _ =>
          match on_deploy w with
          | Rejected e =>
              ([GetContractFactory (js "NFT");
                DeployCall Deploy.NAME Deploy.SYMBOL cost], Thrown e)
          | Fulfilled _ =>
              match on_deployed w with
              | Rejected e =>
                  ([GetContractFactory (js "NFT");
                    DeployCall Deploy.NAME Deploy.SYMBOL cost;
                    WaitForDeployment], Thrown e)
              | Fulfilled _ =>
                  match on_getAddress w with
                  | Rejected e =>
                      ([GetContractFactory (js "NFT");
                        DeployCall Deploy.NAME Deploy.SYMBOL cost;
                        WaitForDeployment; GetAddress], Thrown e)
                  | Fulfilled address =>
                      ([GetContractFactory (js "NFT");
                        DeployCall Deploy.NAME Deploy.SYMBOL cost;
                        WaitForDeployment; GetAddress;
                        Log (js "Deployed NFT Contract at: " ++ address)],
                       Returned tt)
                  end
              end
          end
      end
  end.

(** [main().catch((error) => { console.error(error); process.exitCode = 1 })] *)
Definition script (w : DeployWorld) : list ScriptEvent :=
  match main w with
  | (t, Returned _) => t
  | (t, Thrown e) => t ++ [LogError e; SetExitCode 1]
  end.

(** The exit code of the process: the last one set, 0 when none was. *)
Fixpoint exit_code (t : list ScriptEvent) (code : N) : N :=
  match t with
  | [] => code
  | SetExitCode c :: t' => exit_code t' c
  | _ :: t' => exit_code t' code
  end.

End Script.

(* ================================================================== *)
(** ** Scenarios of the bootstrap and of the deployment *)

Module Bootstrap.

(** A [config.json] that lists the local chain only. *)
Definition config (chainId : N) : option jsstring :=
  if (chainId =? 31337)%N then Some (contract_address Scenario.contract)
  else None.

(** The wallet answers every call; it is on the local chain. *)
Definition wallet : WalletWorld :=
  {| on_signer := Fulfilled Scenario.signer;
     on_address := Fulfilled (signer_address Scenario.signer);
     on_network := Fulfilled 31337%N |}.

(** The form filled in on a page whose bootstrap has not run. *)
Definition typed : AppState :=
  setDescription (js "A futuristic lion with cybernetic enhancements.")
                 (setName (js "Cyber Lion") initialState).

(** The deployment goes through. *)
Definition deployed : Script.DeployWorld :=
  {| Script.on_factory := Fulfilled tt; Script.on_deploy := Fulfilled tt;
     Script.on_deployed := Fulfilled tt;
     Script.on_getAddress := Fulfilled (contract_address Scenario.contract) |}.

End Bootstrap.

(* ================================================================== *)
(** ** Laws of the monad *)

Arguments js : simpl never.
Arguments Ethers.parseUnits : simpl never.

Lemma exec_bind {A B : Type} (o : forall r, Resp r) (p : Prog A) (f : A -> Prog B) :
  exec o (bind p f) =
  match exec o p with
  | (t, Returned a) => let (t', out) := exec o (f a) in (t ++ t', out)
  | (t, Thrown e) => (t, Thrown e)
  end.
Proof.
  induction p as [a | e | e k IH | r k IH]; simpl.
  - destruct (exec o (f a)); reflexivity.
  - reflexivity.
  - rewrite IH. destruct (exec o k) as [t [a | e']]; [| reflexivity].
    destruct (exec o (f a)); reflexivity.
  - rewrite IH. destruct (exec o (k (o r))) as [t [a | e']]; [| reflexivity].
    destruct (exec o (f a)); reflexivity.
Qed.

Lemma exec_try_catch {A : Type} (o : forall r, Resp r) (p : Prog A)
      (h : JsError -> Prog A) :
  exec o (try_catch p h) =
  match exec o p with
  | (t, Returned a) => (t, Returned a)
  | (t, Thrown e) => let (t', out) := exec o (h e) in (t ++ t', out)
  end.
Proof.
  induction p as [a | e | e k IH | r k IH]; simpl.
  - reflexivity.
  - destruct (exec o (h e)); reflexivity.
  - rewrite IH. destruct (exec o k) as [t [a | e']]; [reflexivity |].
    destruct (exec o (h e')); reflexivity.
  - rewrite IH. destruct (exec o (k (o r))) as [t [a | e']]; [reflexivity |].
    destruct (exec o (h e')); reflexivity.
Qed.

Lemma run_bind {A B : Type} (w : World) (p : Prog A) (f : A -> Prog B) :
  run w (bind p f) =
  match run w p with
  | (t, Returned a) => (t ++ trace w (f a), outcome w (f a))
  | (t, Thrown e) => (t, Thrown e)
  end.
Proof.
  unfold run, trace, outcome, run. rewrite exec_bind.
  destruct (exec (respond w) p) as [t [a | e]]; [| reflexivity].
  destruct (exec (respond w) (f a)); reflexivity.
Qed.

Lemma run_try_catch {A : Type} (w : World) (p : Prog A) (h : JsError -> Prog A) :
  run w (try_catch p h) =
  match run w p with
  | (t, Returned a) => (t, Returned a)
  | (t, Thrown e) => (t ++ trace w (h e), outcome w (h e))
  end.
Proof.
  unfold run, trace, outcome, run. rewrite exec_try_catch.
  destruct (exec (respond w) p) as [t [a | e]]; [reflexivity |].
  destruct (exec (respond w) (h e)); reflexivity.
Qed.

Lemma run_perform {A : Type} (w : World) (e : Effect) (p : Prog A) :
  run w (perform e ;; p) = (Eff e :: trace w p, outcome w p).
Proof.
  unfold trace, outcome, run. simpl. destruct (exec (respond w) p); reflexivity.
Qed.

Lemma run_eta {A : Type} (w : World) (p : Prog A) :
  run w p = (trace w p, outcome w p).
Proof. unfold trace, outcome. destruct (run w p); reflexivity. Qed.

Lemma trace_perform {A : Type} (w : World) (e : Effect) (p : Prog A) :
  trace w (perform e ;; p) = Eff e :: trace w p.
Proof. unfold trace at 1. rewrite run_perform. reflexivity. Qed.

Lemma outcome_perform {A : Type} (w : World) (e : Effect) (p : Prog A) :
  outcome w (perform e ;; p) = outcome w p.
Proof. unfold outcome at 1. rewrite run_perform. reflexivity. Qed.

Lemma trace_bind_returned {A B : Type} (w : World) (p : Prog A)
      (f : A -> Prog B) (a : A) :
  outcome w p = Returned a ->
  trace w (bind p f) = trace w p ++ trace w (f a).
Proof.
  intros H. unfold trace at 1. rewrite run_bind, (run_eta w p), H. reflexivity.
Qed.

Lemma outcome_bind_returned {A B : Type} (w : World) (p : Prog A)
      (f : A -> Prog B) (a : A) :
  outcome w p = Returned a ->
  outcome w (bind p f) = outcome w (f a).
Proof.
  intros H. unfold outcome at 1. rewrite run_bind, (run_eta w p), H. reflexivity.
Qed.

Lemma requests_app (t u : list Event) : requests (t ++ u) = requests t ++ requests u.
Proof.
  induction t as [| [e | r | e | f v] t IH]; simpl; rewrite ?IH; reflexivity.
Qed.

Lemma strict_eq_empty (s : jsstring) :
  strict_eq s (js "") = match s with [] => true | _ :: _ => false end.
Proof. destruct s; reflexivity. Qed.

Lemma parseUnits_one_ether :
  Ethers.parseUnits "1" "ether" = Some 1000000000000000000%Z.
Proof. vm_compute. reflexivity. Qed.

(** The deployment price and the payment of the mint are the same amount. *)
Lemma deploy_cost : Deploy.COST = Some (10 ^ 18)%Z.
Proof. vm_compute. reflexivity. Qed.

Arguments gateway : simpl never.
Arguments bearer : simpl never.
Arguments JSON_stringify : simpl never.
Arguments nullish_read : simpl never.
Arguments newFile : simpl never.

(* ================================================================== *)
(** ** JSON.stringify writes what it was given *)

Lemma hex_value_digit (k : N) : (k < 16)%N -> hex_value (hex_digit k) = Some k.
Proof.
  intros H. unfold hex_value, hex_digit.
  destruct (N.ltb_spec k 10).
  - replace ((48 <=? 48 + k) && (48 + k <=? 57))%N with true.
    + f_equal. lia.
    + symmetry. apply andb_true_iff. split; apply N.leb_le; lia.
  - replace ((48 <=? 87 + k) && (87 + k <=? 57))%N with false.
    + replace ((97 <=? 87 + k) && (87 + k <=? 102))%N with true.
      * f_equal. lia.
      * symmetry. apply andb_true_iff. split; apply N.leb_le; lia.
    + symmetry. apply andb_false_iff. right. apply N.leb_gt. lia.
Qed.

Lemma hex_recompose (c : N) :
  (c < 65536)%N ->
  (4096 * ((c / 4096) mod 16) + 256 * ((c / 256) mod 16)
   + 16 * ((c / 16) mod 16) + c mod 16 = c)%N.
Proof.
  intros H.
  pose proof (N.div_mod c 16 ltac:(lia)).
  pose proof (N.div_mod (c / 16) 16 ltac:(lia)).
  pose proof (N.div_mod (c / 16 / 16) 16 ltac:(lia)).
  pose proof (N.mod_lt c 16 ltac:(lia)).
  pose proof (N.mod_lt (c / 16) 16 ltac:(lia)).
  pose proof (N.mod_lt (c / 16 / 16) 16 ltac:(lia)).
  replace (c / 256)%N with (c / 16 / 16)%N by (rewrite N.Div0.div_div by lia; reflexivity).
  replace (c / 4096)%N with (c / 16 / 16 / 16)%N
    by (rewrite !N.Div0.div_div by lia; reflexivity).
  assert (c / 16 / 16 / 16 < 16)%N.
  { rewrite !N.Div0.div_div by lia. apply N.Div0.div_lt_upper_bound; lia. }
  rewrite (N.mod_small (c / 16 / 16 / 16) 16) by assumption.
  pose proof (N.div_mod (c / 16 / 16) 16 ltac:(lia)).
  lia.
Qed.

Lemma quote_unit_plain (c : N) :
  c <> 8%N -> c <> 9%N -> c <> 10%N -> c <> 12%N -> c <> 13%N ->
  c <> 34%N -> c <> 92%N ->
  quote_unit c =
  if (c <? 32)%N || is_high_surrogate c || is_low_surrogate c
  then unicode_escape c else [c].
Proof.
  intros. unfold quote_unit.
  destruct c as [| p]; [reflexivity |].
  do 7 (try destruct p as [p | p |]); try reflexivity; congruence.
Qed.

Lemma surrogate_bounds (c : N) :
  is_high_surrogate c || is_low_surrogate c = true ->
  (55296 <= c < 57344)%N.
Proof.
  unfold is_high_surrogate, is_low_surrogate.
  rewrite orb_true_iff, !andb_true_iff, !N.leb_le. lia.
Qed.

Lemma parse_unicode_escape (c : N) (x : jsstring) :
  (c < 65536)%N ->
  parse_body (unicode_escape c ++ x) = consume c (parse_body x).
Proof.
  intros H.
  change (parse_body (unicode_escape c ++ x)) with
    (match hex_value (hex_digit ((c / 4096) mod 16)),
           hex_value (hex_digit ((c / 256) mod 16)),
           hex_value (hex_digit ((c / 16) mod 16)),
           hex_value (hex_digit (c mod 16)) with
     | Some x3, Some x2, Some x1, Some x0 =>
         consume (4096 * x3 + 256 * x2 + 16 * x1 + x0)%N (parse_body x)
     | _, _, _, _ => None
     end).
  rewrite !hex_value_digit by (apply N.mod_lt; lia).
  rewrite hex_recompose by exact H. reflexivity.
Qed.

Lemma parse_plain (c : N) (x : jsstring) :
  c <> 34%N -> c <> 92%N -> (32 <= c)%N ->
  parse_body (c :: x) = consume c (parse_body x).
Proof.
  intros H1 H2 H3. cbn [parse_body].
  destruct (N.eqb_spec c 34); [contradiction |].
  destruct (N.eqb_spec c 92); [contradiction |].
  destruct (N.ltb_spec c 32); [lia | reflexivity].
Qed.

Lemma parse_quote_unit (c : N) (x : jsstring) :
  parse_body (quote_unit c ++ x) = consume c (parse_body x).
Proof.
  destruct (N.eq_dec c 8) as [-> | ?]; [reflexivity |].
  destruct (N.eq_dec c 9) as [-> | ?]; [reflexivity |].
  destruct (N.eq_dec c 10) as [-> | ?]; [reflexivity |].
  destruct (N.eq_dec c 12) as [-> | ?]; [reflexivity |].
  destruct (N.eq_dec c 13) as [-> | ?]; [reflexivity |].
  destruct (N.eq_dec c 34) as [-> | ?]; [reflexivity |].
  destruct (N.eq_dec c 92) as [-> | ?]; [reflexivity |].
  rewrite quote_unit_plain by assumption.
  destruct (N.ltb_spec c 32) as [Hlt | Hge]; cbn [orb].
  - apply parse_unicode_escape. lia.
  - destruct (is_high_surrogate c || is_low_surrogate c) eqn:Hs.
    + apply parse_unicode_escape. apply surrogate_bounds in Hs. lia.
    + cbn [app]. apply parse_plain; assumption.
Qed.

Lemma quote_body_pair (c d : N) (r : jsstring) :
  quote_body (c :: d :: r) =
  if is_high_surrogate c && is_low_surrogate d
  then c :: d :: quote_body r
  else quote_unit c ++ quote_body (d :: r).
Proof. reflexivity. Qed.

Lemma parse_quote_body_aux (n : nat) :
  forall (s rest : jsstring),
    List.length s <= n ->
    parse_body (quote_body s ++ 34%N :: rest) = Some (s, rest).
Proof.
  induction n as [| n IH]; intros s rest Hlen.
  - destruct s; [reflexivity | cbn in Hlen; lia].
  - destruct s as [| c [| d r]].
    + reflexivity.
    + cbn [quote_body]. rewrite parse_quote_unit. reflexivity.
    + rewrite quote_body_pair.
      destruct (is_high_surrogate c && is_low_surrogate d) eqn:Hp.
      * apply andb_true_iff in Hp. destruct Hp as [Hc Hd].
        assert (Bc : (55296 <= c < 57344)%N)
          by (apply surrogate_bounds; rewrite Hc; reflexivity).
        assert (Bd : (55296 <= d < 57344)%N)
          by (apply surrogate_bounds; rewrite Hd; apply orb_true_r).
        rewrite <- !app_comm_cons.
        rewrite parse_plain by lia. rewrite parse_plain by lia.
        rewrite IH by (cbn in Hlen; lia). reflexivity.
      * rewrite <- app_assoc, parse_quote_unit.
        rewrite IH by (cbn in Hlen |- *; lia). reflexivity.
Qed.

Lemma parse_QuoteJSONString (s rest : jsstring) :
  parse_string (QuoteJSONString s ++ rest) = Some (s, rest).
Proof.
  unfold QuoteJSONString. rewrite <- !app_assoc.
  change (parse_body (quote_body s ++ 34%N :: rest) = Some (s, rest)).
  apply (@parse_quote_body_aux (List.length s)). lia.
Qed.

(** The body [query] sends denotes the object it was given. *)
Lemma parse_JSON_stringify (data : QueryData) :
  parse_query (JSON_stringify data) = Some data.
Proof.
  destruct data as [v].
  change (parse_query (JSON_stringify {| inputs := v |})) with
    (match parse_string (QuoteJSONString (js "inputs")
                           ++ 58%N :: (QuoteJSONString v ++ [125%N])) with
     | Some (key, 58%N :: r1) =>
         if strict_eq key (js "inputs") then
           match parse_string r1 with
           | Some (v', [125%N]) => Some {| inputs := v' |}
           | _ => None
           end
         else None
     | _ => None
     end).
  rewrite parse_QuoteJSONString.
  change (strict_eq (js "inputs") (js "inputs")) with true. cbv iota.
  rewrite parse_QuoteJSONString. reflexivity.
Qed.

(* ================================================================== *)
(** ** The stages, one by one *)

Section StageLemmas.

Variables (env : ProcessEnv) (st : AppState) (w : World).

(** *** createImage *)

Lemma createImage_fetch_rejected (e : JsError) :
  on_fetch w = Rejected e ->
  run w (createImage env st) =
  ([Eff (SetMessage (js "Generating Image..."));
    Req (generation_request env st);
    Eff (ConsoleError [LStr (js "Error generating image:"); LErr e]);
    Eff (SetMessage (js "Failed to generate image. Please try again."));
    Eff (SetIsWaiting false)],
   Returned None).
Proof.
  intros H. unfold createImage, query, run. cbn. rewrite H. reflexivity.
Qed.

Lemma createImage_blob_rejected (r : HttpResponse) (e : JsError) :
  on_fetch w = Fulfilled r -> on_blob w = Rejected e ->
  run w (createImage env st) =
  ([Eff (SetMessage (js "Generating Image..."));
    Req (generation_request env st);
    Req (ReadBlob r);
    Eff (ConsoleError [LStr (js "Error generating image:"); LErr e]);
    Eff (SetMessage (js "Failed to generate image. Please try again."));
    Eff (SetIsWaiting false)],
   Returned None).
Proof.
  intros H1 H2. unfold createImage, query, run. cbn. rewrite H1. cbn.
  rewrite H2. reflexivity.
Qed.

Lemma createImage_fulfilled (r : HttpResponse) (b : Blob) :
  on_fetch w = Fulfilled r -> on_blob w = Fulfilled b ->
  run w (createImage env st) =
  ([Eff (SetMessage (js "Generating Image..."));
    Req (generation_request env st);
    Req (ReadBlob r);
    Eff (ReadAsDataURL b)],
   Returned (Some b)).
Proof.
  intros H1 H2. unfold createImage, query, run. cbn. rewrite H1. cbn.
  rewrite H2. reflexivity.
Qed.

(** [createImage] never throws: it yields the blob or [undefined]. *)
Lemma createImage_outcome :
  outcome w (createImage env st) = Returned (generated w).
Proof.
  unfold outcome, generated.
  destruct (on_fetch w) as [e | r] eqn:Hf.
  - rewrite (createImage_fetch_rejected Hf). reflexivity.
  - destruct (on_blob w) as [e | b] eqn:Hb.
    + rewrite (createImage_blob_rejected Hf Hb). reflexivity.
    + rewrite (createImage_fulfilled Hf Hb). reflexivity.
Qed.

Lemma createImage_requests :
  requests (trace w (createImage env st)) =
  generation_request env st ::
    match on_fetch w with
    | Fulfilled r => [ReadBlob r]
    | Rejected _ => []
    end.
Proof.
  unfold trace.
  destruct (on_fetch w) as [e | r] eqn:Hf.
  - rewrite (createImage_fetch_rejected Hf). reflexivity.
  - destruct (on_blob w) as [e | b] eqn:Hb.
    + rewrite (createImage_blob_rejected Hf Hb). reflexivity.
    + rewrite (createImage_fulfilled Hf Hb). reflexivity.
Qed.

End StageLemmas.

Section UploadLemmas.

Variables (env : ProcessEnv) (w : World).
Variables (img : option Blob) (n d : jsstring).

Lemma upload_fails_hash_of (s : Settled AxiosData) (e : JsError) :
  upload_fails s e <-> hash_of s = inl e.
Proof.
  unfold upload_fails. split.
  - intros [-> | [[-> ->] | [-> ->]]]; reflexivity.
  - destruct s as [e' | [| | h]]; cbn; intros H; try discriminate;
      injection H as <-; auto.
Qed.

Lemma upload_without_credential :
  pinataJWT env = None ->
  run w (uploadImageToPinata env img n d) = ([], Thrown missing_jwt).
Proof.
  intros H. unfold uploadImageToPinata. rewrite H. reflexivity.
Qed.

Lemma upload_image_failed (jwt : jsstring) (e : JsError) :
  pinataJWT env = Some jwt ->
  hash_of (on_pinFile w) = inl e ->
  run w (uploadImageToPinata env img n d) =
  upload_failure
    [Eff (SetMessage (js "Uploading image to IPFS..."));
     Req (PinFile (bearer (JStr jwt)) (image_file img))] e.
Proof.
  intros Hj H. unfold uploadImageToPinata, run. rewrite Hj. cbn.
  destruct (on_pinFile w) as [e' | [| | h]]; cbn in *;
    try discriminate; injection H as <-; reflexivity.
Qed.

Lemma upload_metadata_failed (jwt : jsstring) (h : jsval) (e : JsError) :
  pinataJWT env = Some jwt ->
  hash_of (on_pinFile w) = inr h ->
  hash_of (on_pinJSON w) = inl e ->
  run w (uploadImageToPinata env img n d) =
  upload_failure
    [Eff (SetMessage (js "Uploading image to IPFS..."));
     Req (PinFile (bearer (JStr jwt)) (image_file img));
     Eff (SetMessage (js "Uploading metadata..."));
     Req (PinJSON (bearer (JStr jwt))
                  {| md_name := n; md_description := d;
                     md_image := gateway ++ toString h;
                     md_attributes := [] |})] e.
Proof.
  intros Hj H1 H2. unfold uploadImageToPinata, run. rewrite Hj. cbn.
  destruct (on_pinFile w) as [e1 | [| | h1]]; cbn in *; try discriminate.
  injection H1 as <-.
  destruct (on_pinJSON w) as [e2 | [| | h2]]; cbn in *;
    try discriminate; injection H2 as <-; reflexivity.
Qed.

Lemma upload_fulfilled (jwt : jsstring) (h1 h2 : jsval) :
  pinataJWT env = Some jwt ->
  hash_of (on_pinFile w) = inr h1 ->
  hash_of (on_pinJSON w) = inr h2 ->
  run w (uploadImageToPinata env img n d) =
  ([Eff (SetMessage (js "Uploading image to IPFS..."));
    Req (PinFile (bearer (JStr jwt)) (image_file img));
    Eff (SetMessage (js "Uploading metadata..."));
    Req (PinJSON (bearer (JStr jwt))
                 {| md_name := n; md_description := d;
                    md_image := gateway ++ toString h1;
                    md_attributes := [] |});
    Eff (SetMessage (js "Upload complete!"));
    Eff (SetURL (JStr (gateway ++ toString h2)))],
   Returned {| imageUrl := gateway ++ toString h1;
               metadataUrl := gateway ++ toString h2;
               imageHash := h1; metadataHash := h2 |}).
Proof.
  intros Hj H1 H2. unfold uploadImageToPinata, run. rewrite Hj. cbn.
  destruct (on_pinFile w) as [e1 | [| | x1]]; cbn in *; try discriminate.
  injection H1 as <-.
  destruct (on_pinJSON w) as [e2 | [| | x2]]; cbn in *; try discriminate.
  injection H2 as <-. reflexivity.
Qed.

End UploadLemmas.

Section HandleUploadLemmas.

Variables (env : ProcessEnv) (st : AppState) (w : World).
Variable img : option Blob.

Lemma handleUpload_run :
  run w (handleUpload env st img) =
  match run w (uploadImageToPinata env img (name st) (description st)) with
  | (t, Returned r) =>
      (t ++ [Eff (ConsoleLog [LStr (js "Upload result:"); LResult r])],
       Returned (JStr (metadataUrl r)))
  | (t, Thrown e) =>
      (t ++ [Eff (ConsoleError [LErr e])], Returned JUndefined)
  end.
Proof.
  unfold handleUpload. rewrite run_try_catch, run_bind.
  destruct (run w (uploadImageToPinata env img (name st) (description st)))
    as [t [r | e]]; reflexivity.
Qed.

(** [handleUpload] never throws: it yields the metadata URL or
    [undefined]. *)
Lemma handleUpload_outcome :
  outcome w (handleUpload env st img) = Returned (uploaded env w).
Proof.
  unfold outcome, uploaded. rewrite handleUpload_run.
  destruct (pinataJWT env) as [jwt |] eqn:Hj.
  - destruct (hash_of (on_pinFile w)) as [e1 | h1] eqn:H1.
    + rewrite (upload_image_failed _ _ _ _ _ Hj H1). reflexivity.
    + destruct (hash_of (on_pinJSON w)) as [e2 | h2] eqn:H2.
      * rewrite (upload_metadata_failed _ _ _ _ _ Hj H1 H2). reflexivity.
      * rewrite (upload_fulfilled _ _ _ _ _ Hj H1 H2). reflexivity.
  - rewrite (upload_without_credential _ _ _ _ _ Hj). reflexivity.
Qed.

Lemma handleUpload_requests :
  requests (trace w (handleUpload env st img)) =
  match pinataJWT env with
  | None => []
  | Some jwt =>
      PinFile (bearer (JStr jwt)) (image_file img) ::
        match hash_of (on_pinFile w) with
        | inl _ => []
        | inr h => [PinJSON (bearer (JStr jwt)) (metadata_for st h)]
        end
  end.
Proof.
  unfold trace. rewrite handleUpload_run.
  destruct (pinataJWT env) as [jwt |] eqn:Hj.
  - destruct (hash_of (on_pinFile w)) as [e1 | h1] eqn:H1.
    + rewrite (upload_image_failed _ _ _ _ _ Hj H1). reflexivity.
    + destruct (hash_of (on_pinJSON w)) as [e2 | h2] eqn:H2.
      * rewrite (upload_metadata_failed _ _ _ _ _ Hj H1 H2). reflexivity.
      * rewrite (upload_fulfilled _ _ _ _ _ Hj H1 H2). reflexivity.
  - rewrite (upload_without_credential _ _ _ _ _ Hj). reflexivity.
Qed.

End HandleUploadLemmas.

Section MintLemmas.

Variables (st : AppState) (w : World) (uri : jsval).

Lemma mintImage_requests :
  requests (trace w (mintImage st uri)) =
  match provider st with
  | None => []
  | Some p =>
      GetSigner p ::
        match on_getSigner w, nft st with
        | Fulfilled s, Some c =>
            Mint c s uri one_ether ::
              match on_mint w with
              | Fulfilled tx => [Wait tx]
              | Rejected _ => []
              end
        | _, _ => []
        end
  end.
Proof.
  unfold trace, run, mintImage. rewrite parseUnits_one_ether.
  destruct (provider st) as [p |]; [| reflexivity]. cbn.
  destruct (on_getSigner w) as [e | s]; [reflexivity |]. cbn.
  destruct (nft st) as [c |]; [| reflexivity]. cbn.
  destruct (on_mint w) as [e | tx]; [reflexivity |]. cbn.
  destruct (on_wait w) as [e | []]; reflexivity.
Qed.

(** [mintImage] returns only when the wallet gave a signer, the
    transaction was submitted and its confirmation was awaited. *)
Lemma mintImage_returned :
  outcome w (mintImage st uri) = Returned tt ->
  exists p c s tx,
    provider st = Some p /\ nft st = Some c /\
    on_getSigner w = Fulfilled s /\ on_mint w = Fulfilled tx /\
    on_wait w = Fulfilled tt /\
    trace w (mintImage st uri) =
    [Eff (SetMessage (js "Waiting for Mint..."));
     Req (GetSigner p); Req (Mint c s uri one_ether); Req (Wait tx)].
Proof.
  unfold outcome, trace, run, mintImage. rewrite parseUnits_one_ether.
  destruct (provider st) as [p |]; [| discriminate]. cbn.
  destruct (on_getSigner w) as [e | s]; [discriminate |]. cbn.
  destruct (nft st) as [c |]; [| discriminate]. cbn.
  destruct (on_mint w) as [e | tx]; [discriminate |]. cbn.
  destruct (on_wait w) as [e | []]; [discriminate |]. cbn.
  intros _. exists p, c, s, tx. repeat split; reflexivity.
Qed.

Lemma mintImage_rejected_by_wallet (p : Provider) (c : Contract) (s : Signer)
      (e : JsError) :
  provider st = Some p -> nft st = Some c ->
  on_getSigner w = Fulfilled s -> on_mint w = Rejected e ->
  outcome w (mintImage st uri) = Thrown e.
Proof.
  intros Hp Hc Hs Hm. unfold outcome, run, mintImage.
  rewrite parseUnits_one_ether, Hp, Hc. cbn. rewrite Hs. cbn. rewrite Hm.
  reflexivity.
Qed.

Lemma mintImage_not_confirmed (e : JsError) :
  on_wait w = Rejected e ->
  exists e', outcome w (mintImage st uri) = Thrown e'.
Proof.
  intros Hw. unfold outcome, run, mintImage. rewrite parseUnits_one_ether.
  destruct (provider st) as [p |]; [| eexists; reflexivity]. cbn.
  destruct (on_getSigner w) as [e1 | s]; [eexists; reflexivity |]. cbn.
  destruct (nft st) as [c |]; [| eexists; reflexivity]. cbn.
  destruct (on_mint w) as [e2 | tx]; [eexists; reflexivity |]. cbn.
  rewrite Hw. eexists; reflexivity.
Qed.

End MintLemmas.

(* ================================================================== *)
(** ** The whole handler *)

Section SubmitHandler.

Variables (env : ProcessEnv) (st : AppState) (w : World).

Lemma submitHandler_blank :
  name st = [] \/ description st = [] ->
  run w (submitHandler env st) =
  (prologue st ++ [Eff (Alert (js "Please provide a name and description"))],
   Returned tt).
Proof.
  intros H. unfold submitHandler, run. cbn. rewrite !strict_eq_empty.
  destruct H as [-> | ->]; [reflexivity |].
  destruct (name st); reflexivity.
Qed.

(** A submission with both fields filled in runs the three stages in
    order; the outcome of the handler is the outcome of [mintImage]. *)
Lemma submitHandler_run :
  name st <> [] -> description st <> [] ->
  run w (submitHandler env st) =
  (prologue st ++ [Eff (SetIsWaiting true)]
     ++ trace w (createImage env st)
     ++ trace w (handleUpload env st (generated w))
     ++ [Eff (SetURL (uploaded env w))]
     ++ trace w (mintImage st (uploaded env w))
     ++ epilogue (outcome w (mintImage st (uploaded env w))),
   outcome w (mintImage st (uploaded env w))).
Proof.
  intros Hn Hd. rewrite run_eta. unfold submitHandler.
  rewrite !trace_perform, !outcome_perform, !strict_eq_empty.
  destruct (name st) as [| a n'] eqn:Hname; [congruence |].
  destruct (description st) as [| b d'] eqn:Hdesc; [congruence |].
  rewrite <- Hname, <- Hdesc. cbn [orb].
  pose proof (createImage_outcome env st w) as Hc.
  pose proof (handleUpload_outcome env st w (generated w)) as Hu.
  rewrite trace_perform, outcome_perform.
  rewrite (@trace_bind_returned _ _ _ _ _ _ Hc), (@outcome_bind_returned _ _ _ _ _ _ Hc).
  rewrite (@trace_bind_returned _ _ _ _ _ _ Hu), (@outcome_bind_returned _ _ _ _ _ _ Hu).
  rewrite trace_perform, outcome_perform.
  unfold trace at 3, outcome at 1. rewrite run_bind, run_eta.
  unfold prologue. rewrite Hname, Hdesc.
  destruct (outcome w (mintImage st (uploaded env w))) as [[] | e];
    cbn [fst snd epilogue app]; rewrite ?run_perform, ?app_nil_r;
    reflexivity.
Qed.

End SubmitHandler.

(* ================================================================== *)
(** ** The requests of a run *)

Section Requests.

Variables (env : ProcessEnv) (st : AppState) (w : World).

Lemma submitHandler_blank_requests :
  name st = [] \/ description st = [] ->
  requests (trace w (submitHandler env st)) = [].
Proof.
  intros H. unfold trace. rewrite submitHandler_blank by exact H. reflexivity.
Qed.

Lemma epilogue_requests (o : Outcome unit) : requests (epilogue o) = [].
Proof. destruct o; reflexivity. Qed.

(** The requests of a run are those of its three stages, in order. *)
Lemma submitHandler_requests :
  name st <> [] -> description st <> [] ->
  requests (trace w (submitHandler env st)) =
  requests (trace w (createImage env st))
    ++ requests (trace w (handleUpload env st (generated w)))
    ++ requests (trace w (mintImage st (uploaded env w))).
Proof.
  intros Hn Hd. unfold trace at 1. rewrite submitHandler_run by assumption.
  cbn [fst]. rewrite !requests_app, epilogue_requests, app_nil_r.
  reflexivity.
Qed.

Lemma blank_or_filled :
  (name st = [] \/ description st = []) \/
  (name st <> [] /\ description st <> []).
Proof.
  destruct (name st); [left; left; reflexivity |].
  destruct (description st); [left; right; reflexivity |].
  right; split; discriminate.
Qed.

End Requests.

(** Splits on everything the request list of a run depends on. *)
Ltac stage_cases env st w :=
  destruct (on_fetch w) as [? | ?];
  destruct (pinataJWT env) as [? |];
  destruct (hash_of (on_pinFile w)) as [? | ?];
  destruct (hash_of (on_pinJSON w)) as [? | ?];
  destruct (provider st) as [? |];
  destruct (on_getSigner w) as [? | ?];
  destruct (nft st) as [? |];
  destruct (on_mint w) as [? | ?].

Ltac run_requests :=
  rewrite submitHandler_requests by assumption;
  rewrite createImage_requests,
    handleUpload_requests, mintImage_requests.

Section Uploaded.

Variables (env : ProcessEnv) (w : World).

Lemma uploaded_fulfilled (jwt : jsstring) (h1 h2 : jsval) :
  pinataJWT env = Some jwt ->
  on_pinFile w = Fulfilled (DataObj h1) ->
  on_pinJSON w = Fulfilled (DataObj h2) ->
  uploaded env w = JStr (gateway ++ toString h2).
Proof.
  intros Hj H1 H2. unfold uploaded. rewrite Hj, H1, H2. reflexivity.
Qed.

(** The credential is absent when the variable is unset or blank. *)
Lemma pinataJWT_absent :
  pinataJWT env = None <->
  (REACT_APP_PINATA_JWT env = None \/
   exists raw, REACT_APP_PINATA_JWT env = Some raw /\ trim raw = []).
Proof.
  unfold pinataJWT. destruct (REACT_APP_PINATA_JWT env) as [raw |].
  - destruct (trim raw) as [| c r] eqn:Ht; split.
    + intros _. right. exists raw. split; [reflexivity | exact Ht].
    + reflexivity.
    + discriminate.
    + intros [H | (raw' & H & Ht')]; [discriminate |].
      injection H as <-. rewrite Ht in Ht'. discriminate.
  - split; [intros _; left |]; reflexivity.
Qed.

End Uploaded.

(* ================================================================== *)
(** ** The form and the waiting flag *)

(** The form lets a submission through exactly when no field is empty and
    every field the user typed has a length in range. *)
Lemma form_validity_spec (ed : Edited) (a : AppState) :
  form_validity form ed a = None <->
  (name a <> [] /\ description a <> [] /\
   (name_edited ed = true -> 3 <= strlen (name a) <= 30) /\
   (description_edited ed = true -> 10 <= strlen (description a) <= 150)).
Proof.
  unfold form_validity, form, validate_control, validate, nft_name,
    nft_description, strlen.
  cbn [name_control description_control required minLength maxLength andb].
  destruct ed as [en edd]. cbn [name_edited description_edited].
  destruct (name a) as [| x n'].
  - split; [discriminate | intros (H & _); congruence].
  - change (List.length (x :: n') =? 0) with false.
    change (0 <? List.length (x :: n')) with true.
    destruct (description a) as [| y d'].
    + split.
      * destruct (en && true && (List.length (x :: n') <? 3));
          [discriminate |].
        destruct (en && (30 <? List.length (x :: n'))); discriminate.
      * intros (_ & H & _); congruence.
    + change (List.length (y :: d') =? 0) with false.
      change (0 <? List.length (y :: d')) with true.
      destruct (Nat.ltb_spec (List.length (x :: n')) 3);
        destruct (Nat.ltb_spec 30 (List.length (x :: n')));
        destruct (Nat.ltb_spec (List.length (y :: d')) 10);
        destruct (Nat.ltb_spec 150 (List.length (y :: d')));
        destruct en, edd; cbn [andb]; split;
        try discriminate;
        try (intros (_ & _ & Hn & Hd);
             try specialize (Hn eq_refl); try specialize (Hd eq_refl); lia);
        try (intros _; repeat split; try discriminate; intros; lia).
Qed.

Lemma form_validity_lengths (ed : Edited) (a : AppState) :
  3 <= strlen (name a) <= 30 /\ 10 <= strlen (description a) <= 150 ->
  form_validity form ed a = None.
Proof.
  intros [Hn Hd]. apply form_validity_spec. unfold strlen in *.
  repeat split; try lia; intros E; rewrite E in *; cbn in *; lia.
Qed.

(** While the flag is set the submit button is disabled: a submission
    starts nothing, queues nothing and leaves every suspended handler as
    it is. *)
Lemma submit_refused_while_waiting (env : ProcessEnv) (c : Config) :
  isWaiting (ui c) = true -> step form env c Submit = (c, []).
Proof.
  intros H. cbn [step]. unfold submit, button_disabled. rewrite H. reflexivity.
Qed.

(** A form that is not waiting and has no invalid control starts the
    handler: the generation request is the first thing sent. *)
Lemma submit_starts_when_valid (env : ProcessEnv) (c : Config) :
  isWaiting (ui c) = false ->
  form_validity form (edited c) (ui c) = None ->
  requests (snd (step form env c Submit)) = [generation_request env (ui c)] /\
  map pending (inflight (fst (step form env c Submit))) =
  map pending (inflight c) ++ [generation_request env (ui c)].
Proof.
  intros Hw Hv. cbn [step]. unfold submit, button_disabled. rewrite Hw.
  cbn [andb form disabled_while_waiting].
  change {| name_control := Some nft_name;
            description_control := Some nft_description;
            disabled_while_waiting := true |} with form.
  rewrite Hv. apply form_validity_spec in Hv. destruct Hv as (Hn & Hd & _).
  unfold submitHandler, createImage, query. rewrite !strict_eq_empty.
  destruct (name (ui c)) as [| x n'] eqn:En; [congruence |].
  destruct (description (ui c)) as [| y d'] eqn:Ed; [congruence |].
  cbn. unfold generation_request. rewrite Ed, map_app. split; reflexivity.
Qed.

(** In particular when both lengths are in range, however the values were
    entered. *)
Lemma submit_starts_run (env : ProcessEnv) (c : Config) :
  isWaiting (ui c) = false ->
  3 <= strlen (name (ui c)) <= 30 ->
  10 <= strlen (description (ui c)) <= 150 ->
  requests (snd (step form env c Submit)) = [generation_request env (ui c)] /\
  map pending (inflight (fst (step form env c Submit))) =
  map pending (inflight c) ++ [generation_request env (ui c)].
Proof.
  intros Hw Hn Hd. apply submit_starts_when_valid; [exact Hw |].
  apply form_validity_lengths. split; assumption.
Qed.

(** A fresh page: the empty name is reported and nothing else happens. *)
Remark initial_submit_reports_missing_name (env : ProcessEnv) :
  step form env initialConfig Submit =
  (initialConfig, [Invalid NameField ValueMissing]).
Proof. reflexivity. Qed.

(** The second listing of the file has neither the length attributes nor
    the disabled button: its form fires [onSubmit] on every submission. *)
Remark bare_form_always_submits (env : ProcessEnv) (c : Config) :
  step bare_form env c Submit =
  (let '(a, rd, t, s) := drive (submitHandler env (ui c)) (ui c) (readers c) in
   ({| ui := a; inflight := inflight c ++ park s; readers := rd;
       edited := edited c |}, t)).
Proof. reflexivity. Qed.

Lemma stuck_step (env : ProcessEnv) (c : Config) (i : Input) :
  stuck c ->
  stuck (fst (step form env c i)) /\ snd (step form env c i) = [].
Proof.
  intros [Hi Hw]. destruct i as [v | v | | k w | k | v | v]; cbn [step].
  - split; [split |]; assumption || reflexivity.
  - split; [split |]; assumption || reflexivity.
  - unfold submit, button_disabled. rewrite Hw.
    split; [split |]; assumption || reflexivity.
  - unfold settle_at. rewrite Hi.
    destruct k; cbn; (split; [split |]); assumption || reflexivity.
  - unfold loaded. destruct (nth_error (readers c) k); cbn;
      (split; [split |]); assumption || reflexivity.
  - split; [split |]; assumption || reflexivity.
  - split; [split |]; assumption || reflexivity.
Qed.

(** Once stuck, no input whatsoever releases the slot or sends a request. *)
Lemma stuck_forever (env : ProcessEnv) (l : list Input) (c : Config) :
  stuck c ->
  stuck (fst (steps form env c l)) /\ snd (steps form env c l) = [].
Proof.
  revert c. induction l as [| i l IH]; intros c H; cbn [steps].
  - split; [exact H | reflexivity].
  - destruct (stuck_step env i H) as [H1 E1].
    destruct (step form env c i) as [c1 t1]. cbn [fst snd] in *.
    destruct (IH c1 H1) as [H2 E2].
    destruct (steps form env c1 l) as [c2 t2]. cbn [fst snd] in *.
    subst. split; [exact H2 | reflexivity].
Qed.

(* ================================================================== *)
(** ** A session of one run *)

Lemma settle_only_handler (F : Form) (env : ProcessEnv) (w : World)
      (a : AppState) (rd : list Blob) (ed : Edited) (s : Suspended)
      (l : list Input) :
  steps F env {| ui := a; inflight := [s]; readers := rd; edited := ed |}
        (Settle 0 w :: l) =
  let '(a1, rd1, t1, s1) := drive (resume s (respond w (pending s))) a rd in
  let (c2, t2) := steps F env {| ui := a1; inflight := park s1; readers := rd1;
                                 edited := ed |} l in
  (c2, t1 ++ t2).
Proof.
  cbn [steps step settle_at inflight nth_error ui readers edited firstn skipn].
  destruct (drive (resume s (respond w (pending s))) a rd) as [[[a1 rd1] t1] s1].
  rewrite app_nil_r. reflexivity.
Qed.

Lemma machine_matches_run (F : Form) (env : ProcessEnv) (w : World)
      (ed : Edited) (p : Prog unit) :
  forall (a : AppState) (rd : list Blob),
  exists n,
    let '(a1, rd1, t1, s1) := drive p a rd in
    let r := steps F env {| ui := a1; inflight := park s1; readers := rd1;
                            edited := ed |}
                   (repeat (Settle 0 w) n) in
    inflight (fst r) = [] /\
    t1 ++ snd r = trace w p ++ uncaught (outcome w p).
Proof.
  induction p as [[] | e | e k IH | r k IH]; intros a rd.
  - exists 0. cbn. split; reflexivity.
  - exists 0. cbn. split; reflexivity.
  - destruct (IH (set e a) (start_reader e rd)) as [n Hn]. exists n.
    cbn [drive].
    destruct (drive k (set e a) (start_reader e rd)) as [[[a1 rd1] t1] s1].
    cbv zeta in *. destruct Hn as [H1 H2]. split; [exact H1 |].
    rewrite <- app_comm_cons, H2.
    unfold trace, outcome, run. cbn [exec].
    destruct (exec (respond w) k) as [t o]. reflexivity.
  - destruct (IH (respond w r) a rd) as [n Hn]. exists (S n).
    cbn [drive repeat park]. rewrite settle_only_handler. cbn [pending resume].
    destruct (drive (k (respond w r)) a rd) as [[[a1 rd1] t1] s1].
    cbv zeta in *.
    destruct (steps F env {| ui := a1; inflight := park s1; readers := rd1;
                             edited := ed |}
                    (repeat (Settle 0 w) n)) as [c2 t2].
    cbn [fst snd] in *. destruct Hn as [H1 H2]. split; [exact H1 |].
    rewrite <- app_comm_cons, H2.
    unfold trace, outcome, run. cbn [exec app].
    destruct (exec (respond w) (k (respond w r))) as [t o]. reflexivity.
Qed.

(** A session of one run: submitting an idle, valid form and letting every
    promise settle as [w] says emits exactly the trace of the handler (and
    the uncaught rejection, if it throws) and leaves no handler behind. *)
Lemma session_matches_run (env : ProcessEnv) (w : World) (c : Config) :
  inflight c = [] ->
  isWaiting (ui c) = false ->
  3 <= strlen (name (ui c)) <= 30 ->
  10 <= strlen (description (ui c)) <= 150 ->
  exists n,
    let r := steps form env c (Submit :: repeat (Settle 0 w) n) in
    inflight (fst r) = [] /\
    snd r = trace w (submitHandler env (ui c))
              ++ uncaught (outcome w (submitHandler env (ui c))).
Proof.
  intros Hi Hw Hn Hd.
  destruct (machine_matches_run form env w (edited c)
                                (submitHandler env (ui c))
                                (ui c) (readers c)) as [n H].
  exists n. cbn [steps step]. unfold submit, button_disabled. rewrite Hw.
  cbn [form disabled_while_waiting andb].
  change {| name_control := Some nft_name;
            description_control := Some nft_description;
            disabled_while_waiting := true |} with form.
  replace (form_validity form (edited c) (ui c)) with (@None (Field * Validity))
    by (symmetry; apply form_validity_lengths; split; assumption).
  destruct (drive (submitHandler env (ui c)) (ui c) (readers c))
    as [[[a1 rd1] t1] s1].
  rewrite Hi. cbn [app]. cbv zeta in H.
  destruct (steps form env {| ui := a1; inflight := park s1; readers := rd1;
                              edited := edited c |}
                  (repeat (Settle 0 w) n)) as [c2 t2].
  exact H.
Qed.

(* ================================================================== *)
(** ** Properties of the pipeline *)

(** C1.  In every run whose image upload is fulfilled, the uploads of the
    run are exactly the image upload followed by the metadata upload, and
    the document carried by the metadata request has, as its [image]
    field, the gateway URL built from the [IpfsHash] the image upload
    returned; [name] and [description] are those of the form and
    [attributes] is empty. *)
Theorem metadata_image_is_image_url
        (env : ProcessEnv) (st : AppState) (w : World)
        (jwt : jsstring) (h : jsval) :
  name st <> [] -> description st <> [] ->
  pinataJWT env = Some jwt ->
  on_pinFile w = Fulfilled (DataObj h) ->
  filter is_upload (requests (trace w (submitHandler env st))) =
    [PinFile (bearer (JStr jwt)) (image_file (generated w));
     PinJSON (bearer (JStr jwt))
             {| md_name := name st; md_description := description st;
                md_image := js "https://gateway.pinata.cloud/ipfs/" ++ toString h;
                md_attributes := [] |}].
Proof.
  intros Hn Hd Hj Hf. run_requests. rewrite Hj, Hf. cbn [hash_of].
  unfold metadata_for.
  destruct (on_fetch w) as [? | ?];
  destruct (provider st) as [? |];
  destruct (on_getSigner w) as [? | ?];
  destruct (nft st) as [? |];
  destruct (on_mint w) as [? | ?]; reflexivity.
Qed.

Lemma metadata_image_is_image_url_witness :
  on_pinFile Scenario.happy = Fulfilled (DataObj (JStr (js "Qm1mage"))) /\
  filter is_upload
    (requests (trace Scenario.happy (submitHandler Scenario.env Scenario.filled))) =
    [PinFile (bearer (JStr (js "eyJhbGciOi"))) (image_file (Some Scenario.jpeg));
     PinJSON (bearer (JStr (js "eyJhbGciOi")))
             {| md_name := js "Cyber Lion";
                md_description := js "A futuristic lion with cybernetic enhancements.";
                md_image := js "https://gateway.pinata.cloud/ipfs/" ++ js "Qm1mage";
                md_attributes := [] |}].
Proof.
  split; [reflexivity |].
  apply (@metadata_image_is_image_url Scenario.env Scenario.filled Scenario.happy
           (js "eyJhbGciOi") (JStr (js "Qm1mage")));
    [vm_compute; discriminate | vm_compute; discriminate
     | vm_compute; reflexivity | reflexivity].
Defined.

(** C2.  In every run whose two uploads are fulfilled, every mint call of
    the run carries, as its token URI, the gateway URL built from the
    [IpfsHash] of the metadata upload; and when the session is connected
    and the wallet gives a signer there is exactly one such call. *)
Theorem token_uri_is_metadata_url
        (env : ProcessEnv) (st : AppState) (w : World)
        (jwt : jsstring) (h1 h2 : jsval) :
  name st <> [] -> description st <> [] ->
  pinataJWT env = Some jwt ->
  on_pinFile w = Fulfilled (DataObj h1) ->
  on_pinJSON w = Fulfilled (DataObj h2) ->
  (forall c s uri v,
      In (Mint c s uri v) (requests (trace w (submitHandler env st))) ->
      uri = JStr (js "https://gateway.pinata.cloud/ipfs/" ++ toString h2))
  /\ (forall p c s,
         provider st = Some p -> nft st = Some c ->
         on_getSigner w = Fulfilled s ->
         filter is_mint (requests (trace w (submitHandler env st))) =
         [Mint c s (JStr (js "https://gateway.pinata.cloud/ipfs/" ++ toString h2))
               one_ether]).
Proof.
  intros Hn Hd Hj H1 H2.
  pose proof (@uploaded_fulfilled env w jwt h1 h2 Hj H1 H2) as Hu.
  fold gateway. split.
  - intros c s uri v. run_requests. rewrite Hu, Hj, H1. cbn [hash_of].
    destruct (on_fetch w) as [? | ?];
    destruct (provider st) as [? |];
    destruct (on_getSigner w) as [? | ?];
    destruct (nft st) as [? |];
    destruct (on_mint w) as [? | ?]; cbn [app In];
    intros H; repeat (destruct H as [H | H]; [try discriminate |]);
    try contradiction; injection H; intros; subst; reflexivity.
  - intros p c s Hp Hc Hs. run_requests.
    rewrite Hu, Hj, H1, Hp, Hc, Hs. cbn [hash_of].
    destruct (on_fetch w) as [? | ?];
    destruct (on_mint w) as [? | ?]; reflexivity.
Qed.

Lemma token_uri_is_metadata_url_witness :
  on_pinJSON Scenario.happy = Fulfilled (DataObj (JStr (js "Qmeta"))) /\
  filter is_mint
    (requests (trace Scenario.happy (submitHandler Scenario.env Scenario.filled))) =
  [Mint Scenario.contract Scenario.signer
        (JStr (js "https://gateway.pinata.cloud/ipfs/" ++ js "Qmeta")) one_ether].
Proof.
  split; [reflexivity |].
  apply (proj2 (@token_uri_is_metadata_url
                  Scenario.env Scenario.filled Scenario.happy
                  (js "eyJhbGciOi") (JStr (js "Qm1mage")) (JStr (js "Qmeta"))
                  ltac:(vm_compute; discriminate) ltac:(vm_compute; discriminate)
                  ltac:(vm_compute; reflexivity) eq_refl eq_refl)
               (BrowserProvider 31337) Scenario.contract Scenario.signer);
    reflexivity.
Defined.

(** C3, as stated, fails: the inference API answers 503, yet the body of
    that answer is uploaded as the image, the metadata is uploaded, the
    mint is called and the handler returns normally. *)
Lemma generation_503_is_uploaded_and_minted :
  on_fetch Scenario.unavailable = Fulfilled (mkResponse 503) /\
  requests (trace Scenario.unavailable (submitHandler Scenario.env Scenario.filled)) =
    [generation_request Scenario.env Scenario.filled;
     ReadBlob (mkResponse 503);
     PinFile (bearer (JStr (js "eyJhbGciOi")))
             (mkFile (js "Service Unavailable") (js "image.jpeg") (js "image/jpeg"));
     PinJSON (bearer (JStr (js "eyJhbGciOi")))
             (metadata_for Scenario.filled (JStr (js "Qm1mage")));
     GetSigner (BrowserProvider 31337);
     Mint Scenario.contract Scenario.signer
          (JStr (js "https://gateway.pinata.cloud/ipfs/Qmeta")) one_ether;
     Wait Scenario.tx] /\
  outcome Scenario.unavailable (submitHandler Scenario.env Scenario.filled) =
  Returned tt.
Proof. vm_compute. repeat split. Qed.

(** C3, amended.  A run sends the generation request exactly once (it is
    never retried).  When that request is rejected, or the body of its
    response cannot be read, [createImage] logs the error, calls
    [setMessage] with "Failed to generate image. Please try again.", clears
    the waiting flag and yields no image.  A response that arrives,
    whatever its HTTP status and however empty its body, is not a failure:
    its body is yielded as the image and is the content of the file sent to
    the image upload. *)
Theorem generation_failure_handling
        (env : ProcessEnv) (st : AppState) (w : World) :
  (name st <> [] -> description st <> [] ->
   filter is_fetch (requests (trace w (submitHandler env st))) =
   [generation_request env st])
  /\ (forall e, on_fetch w = Rejected e ->
        run w (createImage env st) =
        ([Eff (SetMessage (js "Generating Image..."));
          Req (generation_request env st);
          Eff (ConsoleError [LStr (js "Error generating image:"); LErr e]);
          Eff (SetMessage (js "Failed to generate image. Please try again."));
          Eff (SetIsWaiting false)],
         Returned None))
  /\ (forall r b, on_fetch w = Fulfilled r -> on_blob w = Fulfilled b ->
        run w (createImage env st) =
        ([Eff (SetMessage (js "Generating Image..."));
          Req (generation_request env st);
          Req (ReadBlob r);
          Eff (ReadAsDataURL b)],
         Returned (Some b))
        /\ (forall jwt, name st <> [] -> description st <> [] ->
              pinataJWT env = Some jwt ->
              In (PinFile (bearer (JStr jwt))
                          (mkFile (blob_bytes b) (js "image.jpeg") (js "image/jpeg")))
                 (requests (trace w (submitHandler env st)))))
  /\ (forall r e, on_fetch w = Fulfilled r -> on_blob w = Rejected e ->
        run w (createImage env st) =
        ([Eff (SetMessage (js "Generating Image..."));
          Req (generation_request env st);
          Req (ReadBlob r);
          Eff (ConsoleError [LStr (js "Error generating image:"); LErr e]);
          Eff (SetMessage (js "Failed to generate image. Please try again."));
          Eff (SetIsWaiting false)],
         Returned None)).
Proof.
  split; [| split; [| split]].
  - intros Hn Hd. run_requests. stage_cases env st w; reflexivity.
  - intros e He. apply createImage_fetch_rejected. exact He.
  - intros r b Hf Hb. split.
    + apply createImage_fulfilled; assumption.
    + intros jwt Hn Hd Hj. run_requests. rewrite Hf, Hj.
      unfold generated. rewrite Hf, Hb. cbn [app]. right. right. left.
      reflexivity.
  - intros r e Hf Hb. apply createImage_blob_rejected; assumption.
Qed.

Lemma generation_failure_handling_witness :
  filter is_fetch
    (requests (trace Scenario.offline (submitHandler Scenario.env Scenario.filled))) =
  [generation_request Scenario.env Scenario.filled]
  /\ run Scenario.offline (createImage Scenario.env Scenario.filled) =
     ([Eff (SetMessage (js "Generating Image..."));
       Req (generation_request Scenario.env Scenario.filled);
       Eff (ConsoleError [LStr (js "Error generating image:");
                          LErr (mkError (js "Failed to fetch"))]);
       Eff (SetMessage (js "Failed to generate image. Please try again."));
       Eff (SetIsWaiting false)],
      Returned None)
  /\ In (PinFile (bearer (JStr (js "eyJhbGciOi")))
                 (mkFile (js "Service Unavailable") (js "image.jpeg") (js "image/jpeg")))
        (requests (trace Scenario.unavailable
                         (submitHandler Scenario.env Scenario.filled))).
Proof.
  split; [| split].
  - apply (proj1 (generation_failure_handling
                    Scenario.env Scenario.filled Scenario.offline));
      vm_compute; discriminate.
  - apply (proj1 (proj2 (generation_failure_handling
                           Scenario.env Scenario.filled Scenario.offline))).
    reflexivity.
  - apply (proj2 (proj1 (proj2 (proj2 (generation_failure_handling
                           Scenario.env Scenario.filled Scenario.unavailable)))
                        (mkResponse 503)
                        (mkBlob (js "Service Unavailable") (js "text/plain"))
                        eq_refl eq_refl));
      [vm_compute; discriminate | vm_compute; discriminate
       | vm_compute; reflexivity].
Defined.

(** C4, as stated, fails: the bundle has no Pinata token, yet the
    generation request is the first thing the run sends and its answer is
    read; the run does not end with the missing-token error, which
    [handleUpload] swallows, but goes on to [mintImage] with an undefined
    token URI. *)
Lemma missing_credential_still_generates :
  pinataJWT Scenario.env_without_jwt = None /\
  requests (trace Scenario.uri_refused
                  (submitHandler Scenario.env_without_jwt Scenario.filled)) =
    [generation_request Scenario.env_without_jwt Scenario.filled;
     ReadBlob (mkResponse 200);
     GetSigner (BrowserProvider 31337);
     Mint Scenario.contract Scenario.signer JUndefined one_ether] /\
  outcome Scenario.uri_refused
          (submitHandler Scenario.env_without_jwt Scenario.filled) =
  Thrown (mkError (js "invalid string value")).
Proof. vm_compute. repeat split. Qed.

(** C4, amended.  When the credential is absent (unset, or blank once
    trimmed), [uploadImageToPinata] throws "Pinata JWT token is missing
    from environment variables." before any effect and any request of its
    own, so the run sends no upload request to the pinning service; the
    check sits in the upload stage, after the generation request, which is
    the first request of the run. *)
Theorem missing_credential_stops_uploads
        (env : ProcessEnv) (st : AppState) (w : World) :
  pinataJWT env = None ->
  name st <> [] -> description st <> [] ->
  (forall img,
      run w (uploadImageToPinata env img (name st) (description st)) =
      ([], Thrown (mkError (js "Pinata JWT token is missing from environment variables."))))
  /\ filter is_upload (requests (trace w (submitHandler env st))) = []
  /\ hd_error (requests (trace w (submitHandler env st))) =
     Some (generation_request env st).
Proof.
  intros Hj Hn Hd. split; [| split].
  - intros img. apply upload_without_credential. exact Hj.
  - run_requests. rewrite Hj.
    destruct (on_fetch w) as [? | ?];
    destruct (provider st) as [? |];
    destruct (on_getSigner w) as [? | ?];
    destruct (nft st) as [? |];
    destruct (on_mint w) as [? | ?]; reflexivity.
  - run_requests. reflexivity.
Qed.

Lemma missing_credential_stops_uploads_witness :
  pinataJWT Scenario.env_without_jwt = None /\
  filter is_upload
    (requests (trace Scenario.happy
                     (submitHandler Scenario.env_without_jwt Scenario.filled))) = [] /\
  hd_error
    (requests (trace Scenario.happy
                     (submitHandler Scenario.env_without_jwt Scenario.filled))) =
  Some (generation_request Scenario.env_without_jwt Scenario.filled).
Proof.
  split; [reflexivity |].
  apply (proj2 (@missing_credential_stops_uploads
                  Scenario.env_without_jwt Scenario.filled Scenario.happy
                  eq_refl ltac:(vm_compute; discriminate)
                  ltac:(vm_compute; discriminate))).
Defined.

(** C5, as stated, fails: the pinning service answers the image upload
    without an [IpfsHash]; nothing fails, the metadata points at
    ".../ipfs/undefined", the mint is called and the handler returns
    normally. *)
Lemma hashless_upload_is_minted :
  on_pinFile Scenario.hashless = Fulfilled (DataObj JUndefined) /\
  requests (trace Scenario.hashless (submitHandler Scenario.env Scenario.filled)) =
    [generation_request Scenario.env Scenario.filled;
     ReadBlob (mkResponse 200);
     PinFile (bearer (JStr (js "eyJhbGciOi"))) (image_file (Some Scenario.jpeg));
     PinJSON (bearer (JStr (js "eyJhbGciOi")))
             {| md_name := js "Cyber Lion";
                md_description := js "A futuristic lion with cybernetic enhancements.";
                md_image := js "https://gateway.pinata.cloud/ipfs/undefined";
                md_attributes := [] |};
     GetSigner (BrowserProvider 31337);
     Mint Scenario.contract Scenario.signer
          (JStr (js "https://gateway.pinata.cloud/ipfs/Qmeta")) one_ether;
     Wait Scenario.tx] /\
  outcome Scenario.hashless (submitHandler Scenario.env Scenario.filled) =
  Returned tt.
Proof. vm_compute. repeat split. Qed.

(** C5, amended.  An upload fails when its request is rejected (network
    failure or a status outside 2xx) or when the body of its response is
    [null] or [undefined], so that reading [IpfsHash] throws.  Then
    [uploadImageToPinata] logs the cause, calls [setMessage] with "Upload
    failed. See console for details." and throws "Failed to upload to
    Pinata: " followed by the message of the cause; the error is the same
    whichever of the two uploads failed (it names no stage), and the failed
    request is the last one the function sends (no retry, and no metadata
    upload after a failed image upload).  A response with any other body
    is not a failure, whether or not it has the content identifier: each
    URL is built from whatever [IpfsHash] reads as ("undefined" when the
    field is missing) and the upload result is returned. *)
Theorem upload_failure_handling
        (env : ProcessEnv) (w : World) (img : option Blob)
        (n d : jsstring) (jwt : jsstring) :
  pinataJWT env = Some jwt ->
  (forall e, upload_fails (on_pinFile w) e ->
     run w (uploadImageToPinata env img n d) =
     ([Eff (SetMessage (js "Uploading image to IPFS..."));
       Req (PinFile (bearer (JStr jwt)) (image_file img));
       Eff (ConsoleError [LStr (js "Pinata upload error:"); LErr e]);
       Eff (SetMessage (js "Upload failed. See console for details."))],
      Thrown (mkError (js "Failed to upload to Pinata: " ++ err_message e))))
  /\ (forall h e,
        on_pinFile w = Fulfilled (DataObj h) -> upload_fails (on_pinJSON w) e ->
        run w (uploadImageToPinata env img n d) =
        ([Eff (SetMessage (js "Uploading image to IPFS..."));
          Req (PinFile (bearer (JStr jwt)) (image_file img));
          Eff (SetMessage (js "Uploading metadata..."));
          Req (PinJSON (bearer (JStr jwt))
                       {| md_name := n; md_description := d;
                          md_image := gateway ++ toString h;
                          md_attributes := [] |});
          Eff (ConsoleError [LStr (js "Pinata upload error:"); LErr e]);
          Eff (SetMessage (js "Upload failed. See console for details."))],
         Thrown (mkError (js "Failed to upload to Pinata: " ++ err_message e))))
  /\ (forall h1 h2,
        on_pinFile w = Fulfilled (DataObj h1) ->
        on_pinJSON w = Fulfilled (DataObj h2) ->
        run w (uploadImageToPinata env img n d) =
        ([Eff (SetMessage (js "Uploading image to IPFS..."));
          Req (PinFile (bearer (JStr jwt)) (image_file img));
          Eff (SetMessage (js "Uploading metadata..."));
          Req (PinJSON (bearer (JStr jwt))
                       {| md_name := n; md_description := d;
                          md_image := gateway ++ toString h1;
                          md_attributes := [] |});
          Eff (SetMessage (js "Upload complete!"));
          Eff (SetURL (JStr (gateway ++ toString h2)))],
         Returned {| imageUrl := gateway ++ toString h1;
                     metadataUrl := gateway ++ toString h2;
                     imageHash := h1; metadataHash := h2 |}))
  /\ toString JUndefined = js "undefined".
Proof.
  intros Hj. split; [| split; [| split]].
  - intros e He. apply upload_fails_hash_of in He.
    rewrite (@upload_image_failed env w img n d jwt e Hj He). reflexivity.
  - intros h e H1 He. apply upload_fails_hash_of in He.
    rewrite (@upload_metadata_failed env w img n d jwt h e Hj);
      [reflexivity | | exact He].
    rewrite H1. reflexivity.
  - intros h1 h2 H1 H2.
    rewrite (@upload_fulfilled env w img n d jwt h1 h2 Hj);
      [reflexivity | |].
    + rewrite H1. reflexivity.
    + rewrite H2. reflexivity.
  - reflexivity.
Qed.

Lemma upload_failure_handling_witness :
  pinataJWT Scenario.env = Some (js "eyJhbGciOi") /\
  upload_fails (on_pinFile Scenario.unauthorized)
               (mkError (js "Request failed with status code 401")) /\
  run Scenario.unauthorized
      (uploadImageToPinata Scenario.env (Some Scenario.jpeg)
                           (js "Cyber Lion") (js "A lion.")) =
  ([Eff (SetMessage (js "Uploading image to IPFS..."));
    Req (PinFile (bearer (JStr (js "eyJhbGciOi"))) (image_file (Some Scenario.jpeg)));
    Eff (ConsoleError [LStr (js "Pinata upload error:");
                       LErr (mkError (js "Request failed with status code 401"))]);
    Eff (SetMessage (js "Upload failed. See console for details."))],
   Thrown (mkError (js "Failed to upload to Pinata: "
                      ++ js "Request failed with status code 401"))).
Proof.
  split; [vm_compute; reflexivity |].
  split; [left; reflexivity |].
  apply (proj1 (@upload_failure_handling
                  Scenario.env Scenario.unauthorized (Some Scenario.jpeg)
                  (js "Cyber Lion") (js "A lion.") (js "eyJhbGciOi")
                  ltac:(vm_compute; reflexivity))).
  left. reflexivity.
Defined.




(** C7 fails on the code.  The inference request is rejected;
    [createImage] clears the waiting flag in its catch block and the
    handler goes on to the image upload.  While that upload is pending the
    submit button is enabled again: a second submission is accepted and a
    second run is in flight beside the first. *)
Theorem submission_accepted_during_upload :
  let c1 := fst (steps form Scenario.env Scenario.ready
                       [Submit; Settle 0 Scenario.offline]) in
  in_flight c1 = true /\
  map pending (inflight c1) =
    [PinFile (bearer (JStr (js "eyJhbGciOi"))) (image_file None)] /\
  isWaiting (ui c1) = false /\
  let r := step form Scenario.env c1 Submit in
  map pending (inflight (fst r)) =
    [PinFile (bearer (JStr (js "eyJhbGciOi"))) (image_file None);
     generation_request Scenario.env Scenario.filled] /\
  requests (snd r) = [generation_request Scenario.env Scenario.filled].
Proof. vm_compute. repeat split. Qed.

(** C8 fails on the code.  Every stage succeeds up to the mint, which the
    user rejects in the wallet: the rejection is caught by nobody, the
    handler is gone with the waiting flag still set, and from then on no
    sequence of inputs releases the flag or sends a request. *)
Theorem mint_rejection_never_releases :
  let r := steps form Scenario.env Scenario.ready
                 (Submit :: repeat (Settle 0 Scenario.rejected_in_wallet) 6) in
  In (Uncaught (mkError (js "user rejected action"))) (snd r) /\
  inflight (fst r) = [] /\
  isWaiting (ui (fst r)) = true /\
  forall l, isWaiting (ui (fst (steps form Scenario.env (fst r) l))) = true /\
            snd (steps form Scenario.env (fst r) l) = [].
Proof.
  cbv zeta.
  assert (S : stuck (fst (steps form Scenario.env Scenario.ready
                 (Submit :: repeat (Settle 0 Scenario.rejected_in_wallet) 6)))).
  { split; vm_compute; reflexivity. }
  split; [vm_compute; tauto |].
  split; [apply S | split; [apply S |]].
  intros l. destruct (stuck_forever Scenario.env l S) as [[_ H] E].
  split; assumption.
Qed.

(** C9.  Every mint call of a run pays exactly one ether (10^18 wei), the
    price [deploy.js] deploys the contract with, and carries the URL the
    upload stage yielded.  A run that completes has sent the mint and has
    awaited [transaction.wait()] before it releases the waiting flag and
    clears the message; when the confirmation is rejected the run does not
    complete. *)
Theorem mint_pays_one_ether_and_awaits_confirmation
        (env : ProcessEnv) (st : AppState) (w : World) :
  (forall c s uri v,
      In (Mint c s uri v) (requests (trace w (submitHandler env st))) ->
      v = (10 ^ 18)%Z /\ Deploy.COST = Some v /\ uri = uploaded env w)
  /\ (name st <> [] -> description st <> [] ->
      outcome w (submitHandler env st) = Returned tt ->
      exists pre p c s tx,
        on_mint w = Fulfilled tx /\ on_wait w = Fulfilled tt /\
        trace w (submitHandler env st) =
        pre ++ [Eff (SetURL (uploaded env w));
                Eff (SetMessage (js "Waiting for Mint..."));
                Req (GetSigner p);
                Req (Mint c s (uploaded env w) (10 ^ 18)%Z);
                Req (Wait tx);
                Eff (SetIsWaiting false);
                Eff (SetMessage (js ""))])
  /\ (forall e, name st <> [] -> description st <> [] ->
                on_wait w = Rejected e ->
                exists e', outcome w (submitHandler env st) = Thrown e').
Proof.
  change (10 ^ 18)%Z with one_ether.
  split; [| split].
  - intros c s uri v.
    destruct (blank_or_filled st) as [Hb | [Hn Hd]].
    + rewrite submitHandler_blank_requests by exact Hb. intros [].
    + run_requests.
      stage_cases env st w; cbn [app In];
      intros H; repeat (destruct H as [H | H]; [try discriminate |]);
      try contradiction; injection H; intros; subst;
      (split; [reflexivity | split; [vm_compute; reflexivity | reflexivity]]).
  - intros Hn Hd. unfold outcome at 1, trace at 1.
    rewrite submitHandler_run by assumption. cbn [fst snd].
    intros Hm. destruct (mintImage_returned _ _ _ Hm)
      as (p & c & s & tx & Hp & Hc & Hs & Hmint & Hw & Ht).
    exists (prologue st ++ [Eff (SetIsWaiting true)]
              ++ trace w (createImage env st)
              ++ trace w (handleUpload env st (generated w))), p, c, s, tx.
    split; [exact Hmint | split; [exact Hw |]].
    rewrite Ht, Hm. cbn [epilogue]. rewrite <- !app_assoc. reflexivity.
  - intros e Hn Hd Hw. unfold outcome at 1.
    rewrite submitHandler_run by assumption. cbn [snd].
    eapply mintImage_not_confirmed; exact Hw.
Qed.

Lemma mint_pays_one_ether_and_awaits_confirmation_witness :
  outcome Scenario.happy (submitHandler Scenario.env Scenario.filled) = Returned tt /\
  exists pre p c s tx,
    on_mint Scenario.happy = Fulfilled tx /\ on_wait Scenario.happy = Fulfilled tt /\
    trace Scenario.happy (submitHandler Scenario.env Scenario.filled) =
    pre ++ [Eff (SetURL (uploaded Scenario.env Scenario.happy));
            Eff (SetMessage (js "Waiting for Mint..."));
            Req (GetSigner p);
            Req (Mint c s (uploaded Scenario.env Scenario.happy) (10 ^ 18)%Z);
            Req (Wait tx);
            Eff (SetIsWaiting false);
            Eff (SetMessage (js ""))].
Proof.
  split; [vm_compute; reflexivity |].
  apply (proj1 (proj2 (mint_pays_one_ether_and_awaits_confirmation
                         Scenario.env Scenario.filled Scenario.happy)));
    [vm_compute; discriminate | vm_compute; discriminate
     | vm_compute; reflexivity].
Defined.

(** C10.  A run sends exactly one inference request; its body is
    [JSON.stringify] of the object whose only field, [inputs], is the
    description between two backticks; read back as JSON the body gives
    that prompt, which is never the description itself. *)
Theorem prompt_is_backticked_description
        (env : ProcessEnv) (st : AppState) (w : World) :
  name st <> [] -> description st <> [] ->
  filter is_fetch (requests (trace w (submitHandler env st))) =
    [Fetch (bearer (env_value (REACT_APP_HUGGING_FACE_API_KEY env)))
           (JSON_stringify {| inputs := [96%N] ++ description st ++ [96%N] |})]
  /\ parse_query
       (JSON_stringify {| inputs := [96%N] ++ description st ++ [96%N] |}) =
     Some {| inputs := [96%N] ++ description st ++ [96%N] |}
  /\ [96%N] ++ description st ++ [96%N] <> description st.
Proof.
  intros Hn Hd. split; [| split].
  - run_requests. unfold generation_request.
    stage_cases env st w; reflexivity.
  - apply parse_JSON_stringify.
  - intros E. apply (f_equal (@List.length N)) in E.
    rewrite !length_app in E. simpl in E. lia.
Qed.

Lemma prompt_is_backticked_description_witness :
  filter is_fetch
    (requests (trace Scenario.happy (submitHandler Scenario.env Scenario.filled))) =
    [Fetch (js "Bearer hf_key")
           (js "{" ++ [34%N] ++ js "inputs" ++ [34%N] ++ js ":" ++ [34%N]
               ++ js "`A futuristic lion with cybernetic enhancements.`"
               ++ [34%N] ++ js "}")].
Proof.
  apply (proj1 (@prompt_is_backticked_description
                  Scenario.env Scenario.filled Scenario.happy
                  ltac:(vm_compute; discriminate)
                  ltac:(vm_compute; discriminate))).
Defined.

(* ================================================================== *)
(** ** Sessions, in general *)

Section Sessions.

Variables (F : Form) (env : ProcessEnv) (w : World).








End Sessions.

Section OneRun.

Variables (env : ProcessEnv) (w : World) (c : Config).
Hypothesis idle : inflight c = [].
Hypothesis not_waiting : isWaiting (ui c) = false.
Hypothesis name_ok : 3 <= strlen (name (ui c)) <= 30.
Hypothesis description_ok : 10 <= strlen (description (ui c)) <= 150.




End OneRun.

Section AfterStages.

Variables (env : ProcessEnv) (st : AppState) (w : World).






End AfterStages.

(* ================================================================== *)
(** ** Further properties *)

(** X1.  When every stage succeeds the handler makes its seven requests
    in the order generation, body, image upload, metadata upload, signer,
    mint, confirmation, and the progress label goes through its six values
    in order, ending empty. *)
Theorem stages_run_in_order
        (env : ProcessEnv) (st : AppState) (w : World) (jwt : jsstring)
        (r : HttpResponse) (b : Blob) (h1 h2 : jsval)
        (p : Provider) (c : Contract) (s : Signer) (tx : Transaction) :
  name st <> [] -> description st <> [] ->
  pinataJWT env = Some jwt ->
  on_fetch w = Fulfilled r -> on_blob w = Fulfilled b ->
  on_pinFile w = Fulfilled (DataObj h1) ->
  on_pinJSON w = Fulfilled (DataObj h2) ->
  provider st = Some p -> nft st = Some c ->
  on_getSigner w = Fulfilled s -> on_mint w = Fulfilled tx ->
  on_wait w = Fulfilled tt ->
  requests (trace w (submitHandler env st)) =
    [generation_request env st;
     ReadBlob r;
     PinFile (bearer (JStr jwt)) (image_file (Some b));
     PinJSON (bearer (JStr jwt)) (metadata_for st h1);
     GetSigner p;
     Mint c s (JStr (gateway ++ toString h2)) one_ether;
     Wait tx]
  /\ messages (trace w (submitHandler env st)) =
     [js "Generating Image..."; js "Uploading image to IPFS...";
      js "Uploading metadata..."; js "Upload complete!";
      js "Waiting for Mint..."; js ""]
  /\ outcome w (submitHandler env st) = Returned tt.
Proof.
  intros Hn Hd Hj Hf Hb H1 H2 Hp Hc Hs Hm Hw.
  assert (G : generated w = Some b) by (unfold generated; rewrite Hf, Hb; reflexivity).
  assert (U : uploaded env w = JStr (gateway ++ toString h2))
    by (eapply uploaded_fulfilled; eassumption).
  assert (T1 : trace w (createImage env st) =
               [Eff (SetMessage (js "Generating Image..."));
                Req (generation_request env st); Req (ReadBlob r);
                Eff (ReadAsDataURL b)]).
  { unfold trace. erewrite createImage_fulfilled by eassumption. reflexivity. }
  assert (T2 : trace w (handleUpload env st (Some b)) =
               [Eff (SetMessage (js "Uploading image to IPFS..."));
                Req (PinFile (bearer (JStr jwt)) (image_file (Some b)));
                Eff (SetMessage (js "Uploading metadata..."));
                Req (PinJSON (bearer (JStr jwt)) (metadata_for st h1));
                Eff (SetMessage (js "Upload complete!"));
                Eff (SetURL (JStr (gateway ++ toString h2)));
                Eff (ConsoleLog [LStr (js "Upload result:");
                                 LResult {| imageUrl := gateway ++ toString h1;
                                            metadataUrl := gateway ++ toString h2;
                                            imageHash := h1; metadataHash := h2 |}])]).
  { unfold trace. rewrite handleUpload_run.
    rewrite (@upload_fulfilled env w (Some b) (name st) (description st) jwt h1 h2 Hj);
      [reflexivity | rewrite H1; reflexivity | rewrite H2; reflexivity]. }
  assert (R3 : run w (mintImage st (JStr (gateway ++ toString h2))) =
               ([Eff (SetMessage (js "Waiting for Mint..."));
                 Req (GetSigner p);
                 Req (Mint c s (JStr (gateway ++ toString h2)) one_ether);
                 Req (Wait tx)], Returned tt)).
  { unfold run, mintImage. rewrite parseUnits_one_ether, Hp, Hc. cbn.
    rewrite Hs. cbn. rewrite Hm. cbn. rewrite Hw. reflexivity. }
  unfold trace at 1 2, outcome at 1.
  rewrite submitHandler_run by assumption. cbn [fst snd].
  rewrite G, U, T1, T2. unfold trace, outcome. rewrite R3.
  repeat split.
Qed.

(** X2.  The only errors that leave [submitHandler] are those of the mint
    stage: a missing provider or contract, or a rejection by the wallet,
    the mint or the confirmation.  Errors of the generation and of the
    uploads never reach the caller. *)
Theorem only_mint_errors_escape
        (env : ProcessEnv) (st : AppState) (w : World) (e : JsError) :
  outcome w (submitHandler env st) = Thrown e ->
  (provider st = None /\ e = nullish_read (js "null") (js "getSigner"))
  \/ on_getSigner w = Rejected e
  \/ (nft st = None /\ e = nullish_read (js "null") (js "connect"))
  \/ on_mint w = Rejected e
  \/ on_wait w = Rejected e.
Proof.
  destruct (blank_or_filled st) as [Hb | [Hn Hd]].
  - unfold outcome. rewrite submitHandler_blank by exact Hb. discriminate.
  - unfold outcome at 1. rewrite submitHandler_run by assumption. cbn [snd].
    unfold outcome, run, mintImage. rewrite parseUnits_one_ether.
    destruct (provider st) as [p |];
      [| cbn; intros H; injection H as <-; left; split; reflexivity].
    cbn. destruct (on_getSigner w) as [e1 | s];
      [cbn; intros H; injection H as <-; right; left; reflexivity |].
    cbn. destruct (nft st) as [c |];
      [| cbn; intros H; injection H as <-; right; right; left; split; reflexivity].
    cbn. destruct (on_mint w) as [e2 | tx];
      [cbn; intros H; injection H as <-; do 3 right; left; reflexivity |].
    cbn. destruct (on_wait w) as [e3 | []];
      [cbn; intros H; injection H as <-; do 4 right; reflexivity | discriminate].
Qed.

(** X6.  The mint is called exactly when the form is filled in, the
    session has a provider and a contract, and the wallet gives a signer;
    generation and upload failures do not prevent it. *)
Theorem mint_called_iff_connected
        (env : ProcessEnv) (st : AppState) (w : World) :
  (exists c s uri v,
      In (Mint c s uri v) (requests (trace w (submitHandler env st))))
  <->
  (name st <> [] /\ description st <> [] /\
   (exists p, provider st = Some p) /\ (exists c, nft st = Some c) /\
   (exists s, on_getSigner w = Fulfilled s)).
Proof.
  split.
  - intros (c & s & uri & v & H).
    destruct (blank_or_filled st) as [Hb | [Hn Hd]].
    + rewrite submitHandler_blank_requests in H by exact Hb. destruct H.
    + split; [exact Hn | split; [exact Hd |]]. revert H. run_requests.
      stage_cases env st w; cbn [app In];
        intros H; repeat (destruct H as [H | H]; [try discriminate |]);
        try contradiction;
        (split; [eexists; reflexivity
                | split; [eexists; reflexivity | eexists; reflexivity]]).
  - intros (Hn & Hd & [p Hp] & [c Hc] & [s Hs]).
    exists c, s, (uploaded env w), one_ether. run_requests.
    rewrite Hp, Hc, Hs. apply in_or_app. right. apply in_or_app. right.
    right. left. reflexivity.
Qed.







(** X7.  [loadBlockchainData] sets the contract last: if the contract is
    set afterwards, then a wallet was present, the provider and the
    account are set, the network answered with a chain that [config]
    lists, the contract is the one at the address listed for that chain,
    and the function returned. *)
Theorem contract_is_set_last
        (ethereum : option N) (config : N -> option jsstring)
        (wal : WalletWorld) (a : AppState) (c : Contract) :
  nft a = None ->
  nft (fst (fst (loadBlockchainData ethereum config wal a))) = Some c ->
  exists chain address chainId,
    ethereum = Some chain /\
    provider (fst (fst (loadBlockchainData ethereum config wal a))) =
      Some (BrowserProvider chain) /\
    account (fst (fst (loadBlockchainData ethereum config wal a))) = Some address /\
    on_address wal = Fulfilled address /\
    on_network wal = Fulfilled chainId /\
    config chainId = Some (contract_address c) /\
    snd (loadBlockchainData ethereum config wal a) = Returned tt.
Proof.
  intros Ha. unfold loadBlockchainData.
  destruct ethereum as [chain |]; [| cbn; congruence].
  destruct (on_signer wal) as [e | s]; [cbn; congruence |].
  destruct (on_address wal) as [e | address]; [cbn; congruence |].
  destruct (on_network wal) as [e | chainId]; [cbn; congruence |].
  destruct (config chainId) as [target |] eqn:Hc; [| cbn; congruence].
  cbn. intros H. injection H as <-.
  exists chain, address, chainId. cbn. repeat split; assumption || reflexivity.
Qed.

(** X8.  When [loadBlockchainData] did not complete (no wallet, a wallet
    call rejected, or a chain that [config] does not list), a later run
    still sends the generation request and, with a credential, the image
    upload, but never calls the mint, and the handler throws. *)
Theorem failed_bootstrap_never_mints
        (ethereum : option N) (config : N -> option jsstring)
        (wal : WalletWorld) (a : AppState)
        (env : ProcessEnv) (w : World) (st : AppState) :
  nft a = None ->
  (ethereum = None \/
   exists e, snd (loadBlockchainData ethereum config wal a) = Thrown e) ->
  provider st = provider (fst (fst (loadBlockchainData ethereum config wal a))) ->
  nft st = nft (fst (fst (loadBlockchainData ethereum config wal a))) ->
  name st <> [] -> description st <> [] ->
  filter is_mint (requests (trace w (submitHandler env st))) = [] /\
  filter is_fetch (requests (trace w (submitHandler env st))) =
    [generation_request env st] /\
  (forall jwt, pinataJWT env = Some jwt ->
               In (PinFile (bearer (JStr jwt)) (image_file (generated w)))
                  (requests (trace w (submitHandler env st)))) /\
  exists e, outcome w (submitHandler env st) = Thrown e.
Proof.
  intros Ha Hfail Hp Hc Hn Hd.
  assert (Hnft : nft st = None).
  { rewrite Hc. revert Hfail. unfold loadBlockchainData.
    destruct ethereum as [chain |]; [| intros _; exact Ha].
    intros [E | [e E]]; [discriminate |]. revert E.
    destruct (on_signer wal); [intros _; exact Ha |].
    destruct (on_address wal); [intros _; exact Ha |].
    destruct (on_network wal) as [? | chainId]; [intros _; exact Ha |].
    destruct (config chainId); [discriminate | intros _; exact Ha]. }
  clear Hp Hc Hfail. repeat split.
  - run_requests. rewrite Hnft. stage_cases env st w; reflexivity.
  - run_requests. rewrite Hnft. stage_cases env st w; reflexivity.
  - intros jwt Hj. run_requests. rewrite Hj. apply in_or_app. right.
    left. reflexivity.
  - unfold outcome at 1. rewrite submitHandler_run by assumption. cbn [snd].
    unfold outcome, run, mintImage. rewrite parseUnits_one_ether, Hnft.
    destruct (provider st); [| eexists; reflexivity]. cbn.
    destruct (on_getSigner w); eexists; reflexivity.
Qed.

Lemma trimStart_head (s : jsstring) (c : N) (r : jsstring) :
  trimStart s = c :: r -> is_space c = false.
Proof.
  induction s as [| x s IH]; [discriminate |].
  cbn [trimStart]. destruct (is_space x) eqn:Hx; [exact IH |].
  intros H. injection H as <- _. exact Hx.
Qed.

Lemma trimStart_suffix (s : jsstring) :
  exists pre, s = pre ++ trimStart s /\ forallb is_space pre = true.
Proof.
  induction s as [| x s [pre [E F]]].
  - exists []. split; reflexivity.
  - cbn [trimStart]. destruct (is_space x) eqn:Hx.
    + exists (x :: pre). split; [cbn [app]; rewrite <- E; reflexivity |].
      cbn [forallb]. rewrite Hx, F. reflexivity.
    + exists []. split; reflexivity.
Qed.

Lemma trimEnd_last (s : jsstring) (d : N) :
  trimEnd s <> [] -> is_space (last (trimEnd s) d) = false.
Proof.
  unfold trimEnd. destruct (trimStart (rev s)) as [| c r] eqn:E.
  - intros H. exfalso. apply H. reflexivity.
  - intros _. cbn [rev]. rewrite last_last. eapply trimStart_head. exact E.
Qed.

Lemma trimEnd_head (h : N) (t : jsstring) :
  is_space h = false -> exists r, trimEnd (h :: t) = h :: r.
Proof.
  intros Hh. unfold trimEnd.
  destruct (trimStart_suffix (rev (h :: t))) as [pre [E F]].
  destruct (trimStart (rev (h :: t))) as [| c r] eqn:Et.
  - exfalso. rewrite app_nil_r in E.
    assert (In h pre) by (rewrite <- E; apply in_rev; rewrite rev_involutive; left; reflexivity).
    rewrite forallb_forall in F. rewrite (F h H) in Hh. discriminate.
  - apply (f_equal (@rev N)) in E. rewrite rev_involutive, rev_app_distr in E.
    destruct (rev (c :: r)) as [| x l] eqn:Er.
    + apply (f_equal (@List.length N)) in Er. rewrite length_rev in Er.
      discriminate.
    + cbn [app] in E. injection E as <- _. exists l. reflexivity.
Qed.

(** The token kept by [uploadImageToPinata] is the trimmed variable: it
    is not empty and neither starts nor ends with white space. *)
Lemma pinataJWT_trimmed (env : ProcessEnv) (jwt : jsstring) :
  pinataJWT env = Some jwt ->
  exists raw,
    REACT_APP_PINATA_JWT env = Some raw /\ jwt = trim raw /\ jwt <> [] /\
    is_space (hd 32%N jwt) = false /\ is_space (last jwt 32%N) = false.
Proof.
  unfold pinataJWT. destruct (REACT_APP_PINATA_JWT env) as [raw |]; [| discriminate].
  destruct (trim raw) as [| c r] eqn:Et; [discriminate |].
  intros H. injection H as <-. exists raw.
  split; [reflexivity | split; [symmetry; exact Et | split; [discriminate |]]].
  unfold trim in Et.
  destruct (trimStart raw) as [| h t] eqn:Es.
  - discriminate.
  - pose proof (trimStart_head _ Es) as Hh.
    destruct (@trimEnd_head h t Hh) as [r' Er]. split.
    + rewrite Er in Et. injection Et as <- _. exact Hh.
    + rewrite <- Et. apply trimEnd_last. rewrite Er. discriminate.
Qed.

Lemma credential_of_request
      (env : ProcessEnv) (st : AppState) (w : World) (r : Request) :
  In r (requests (trace w (submitHandler env st))) ->
  match r with
  | Fetch authorization _ =>
      authorization =
      js "Bearer " ++ toString (env_value (REACT_APP_HUGGING_FACE_API_KEY env))
  | PinFile authorization _ | PinJSON authorization _ =>
      exists raw,
        REACT_APP_PINATA_JWT env = Some raw /\
        authorization = js "Bearer " ++ trim raw /\
        trim raw <> [] /\
        is_space (hd 32%N (trim raw)) = false /\
        is_space (last (trim raw) 32%N) = false
  | _ => True
  end.
Proof.
  destruct (blank_or_filled st) as [Hb | [Hn Hd]].
  - rewrite submitHandler_blank_requests by exact Hb. intros [].
  - run_requests.
    destruct (pinataJWT env) as [jwt |] eqn:Hj.
    + destruct (pinataJWT_trimmed env Hj) as (raw & Hr & -> & H1 & H2 & H3).
      unfold generation_request, bearer.
      destruct (on_fetch w) as [? | ?];
      destruct (hash_of (on_pinFile w)) as [? | ?];
      destruct (provider st) as [? |];
      destruct (on_getSigner w) as [? | ?];
      destruct (nft st) as [? |];
      destruct (on_mint w) as [? | ?]; cbn [app In];
      intros H; repeat (destruct H as [H | H]; [subst r |]);
      try contradiction; try exact I; try reflexivity;
      (exists raw; repeat split; assumption).
    + unfold generation_request, bearer.
      destruct (on_fetch w) as [? | ?];
      destruct (provider st) as [? |];
      destruct (on_getSigner w) as [? | ?];
      destruct (nft st) as [? |];
      destruct (on_mint w) as [? | ?]; cbn [app In];
      intros H; repeat (destruct H as [H | H]; [subst r |]);
      try contradiction; try exact I; reflexivity.
Qed.

(** X9.  Every request of a run that has an Authorization header carries
    its own service's credential in it: an inference request carries
    "Bearer " followed by the Hugging Face key, an image upload and a
    metadata upload carry "Bearer " followed by the Pinata token, trimmed,
    never empty and never padded with white space. *)
Theorem requests_carry_their_credential
        (env : ProcessEnv) (st : AppState) (w : World) :
  (forall authorization body,
      In (Fetch authorization body) (requests (trace w (submitHandler env st))) ->
      authorization =
      js "Bearer " ++ toString (env_value (REACT_APP_HUGGING_FACE_API_KEY env)))
  /\ (forall authorization file,
        In (PinFile authorization file)
           (requests (trace w (submitHandler env st))) ->
        exists raw,
          REACT_APP_PINATA_JWT env = Some raw /\
          authorization = js "Bearer " ++ trim raw /\
          trim raw <> [] /\
          is_space (hd 32%N (trim raw)) = false /\
          is_space (last (trim raw) 32%N) = false)
  /\ (forall authorization metadata,
        In (PinJSON authorization metadata)
           (requests (trace w (submitHandler env st))) ->
        exists raw,
          REACT_APP_PINATA_JWT env = Some raw /\
          authorization = js "Bearer " ++ trim raw /\
          trim raw <> [] /\
          is_space (hd 32%N (trim raw)) = false /\
          is_space (last (trim raw) 32%N) = false).
Proof.
  split; [| split].
  - intros a b H. exact (credential_of_request env st w _ H).
  - intros a f H. exact (credential_of_request env st w _ H).
  - intros a m H. exact (credential_of_request env st w _ H).
Qed.

(** X10.  The body of the inference request determines the prompt: two
    queries with the same serialization are the same query, whatever code
    units (quotes, backslashes, control characters, lone surrogates) their
    prompts contain. *)
Theorem query_body_determines_prompt (d1 d2 : QueryData) :
  JSON_stringify d1 = JSON_stringify d2 -> d1 = d2.
Proof.
  intros H. apply (f_equal parse_query) in H.
  rewrite !parse_JSON_stringify in H. injection H as H. exact H.
Qed.

(** X11.  The deployment script deploys "AI Generated NFT" / "AINFT" at
    the price of one ether; it logs the address exactly when the process
    exits with code 0, and logs an error exactly when it exits with
    code 1; there is no other exit code. *)
Theorem deployment_is_logged_or_fails (w : Script.DeployWorld) :
  (forall n s cost,
      In (Script.DeployCall n s cost) (Script.script w) ->
      n = js "AI Generated NFT" /\ s = js "AINFT" /\ cost = one_ether)
  /\ ((exists address,
          Script.on_getAddress w = Fulfilled address /\
          In (Script.Log (js "Deployed NFT Contract at: " ++ address))
             (Script.script w))
      <-> Script.exit_code (Script.script w) 0 = 0%N)
  /\ ((exists e, In (Script.LogError e) (Script.script w))
      <-> Script.exit_code (Script.script w) 0 = 1%N)
  /\ (Script.exit_code (Script.script w) 0 = 0%N \/
      Script.exit_code (Script.script w) 0 = 1%N).
Proof.
  unfold Script.script, Script.main. rewrite deploy_cost.
  change (10 ^ 18)%Z with one_ether.
  destruct (Script.on_factory w) as [e1 | []];
    [| destruct (Script.on_deploy w) as [e2 | []];
       [| destruct (Script.on_deployed w) as [e3 | []];
          [| destruct (Script.on_getAddress w) as [e4 | address] ]]];
    cbn [app In Script.exit_code];
    (split; [| split; [| split]]);
    try (intros n s cost H;
         repeat (destruct H as [H | H]; [try discriminate |]);
         try contradiction; injection H; intros; subst;
         repeat split; reflexivity);
    try (split; [intros (a & Ha & H) | intros H]; try discriminate;
         repeat (destruct H as [H | H]; [try discriminate |]);
         try contradiction; fail);
    try (split; [intros _; reflexivity | intros _; eexists; eauto 10 using in_eq, in_cons]);
    try (split; [intros (e & H) | intros H]; try discriminate;
         repeat (destruct H as [H | H]; [try discriminate |]);
         try contradiction; fail);
    try (left; reflexivity); try (right; reflexivity).
Qed.

(** X12.  The form of the second listing relies on the guard of
    [submitHandler] alone.  With an empty name or description the handler
    alerts and changes nothing; with both non-empty, however short and
    whether or not other runs are in flight, a new run starts: the waiting
    flag is set and the generation request is sent. *)
Theorem bare_form_guard (env : ProcessEnv) (c : Config) :
  (name (ui c) = [] \/ description (ui c) = [] ->
   step bare_form env c Submit =
   (c, prologue (ui c)
         ++ [Eff (Alert (js "Please provide a name and description"))]))
  /\ (name (ui c) <> [] -> description (ui c) <> [] ->
      requests (snd (step bare_form env c Submit)) =
        [generation_request env (ui c)] /\
      map pending (inflight (fst (step bare_form env c Submit))) =
        map pending (inflight c) ++ [generation_request env (ui c)] /\
      isWaiting (ui (fst (step bare_form env c Submit))) = true).
Proof.
  split.
  - intros H. rewrite bare_form_always_submits.
    unfold submitHandler. rewrite !strict_eq_empty.
    destruct c as [a fl rd ed]. cbn [ui inflight readers edited] in *.
    assert (E : (match name a with [] => true | _ :: _ => false end
                 || match description a with [] => true | _ :: _ => false end)
                = true).
    { destruct H as [-> | ->]; [reflexivity | apply orb_true_r]. }
    rewrite E. cbn. rewrite app_nil_r. destruct a. reflexivity.
  - intros Hn Hd. rewrite bare_form_always_submits.
    unfold submitHandler, createImage, query. rewrite !strict_eq_empty.
    destruct (name (ui c)) as [| x n'] eqn:En; [congruence |].
    destruct (description (ui c)) as [| y d'] eqn:Ed; [congruence |].
    cbn. unfold generation_request. rewrite Ed, map_app. repeat split.
Qed.




(** X14.  In every run, whatever succeeds or fails, the requests are made
    in stage order and none is made twice: generation, body, image upload,
    metadata upload, signer, mint, confirmation. *)
Theorem requests_follow_the_stages
        (env : ProcessEnv) (st : AppState) (w : World) :
  StronglySorted lt (map stage_of (requests (trace w (submitHandler env st)))).
Proof.
  destruct (blank_or_filled st) as [Hb | [Hn Hd]].
  - rewrite submitHandler_blank_requests by exact Hb. constructor.
  - run_requests.
    stage_cases env st w; cbn [app map stage_of];
      repeat (constructor; [| repeat (constructor; try lia)]);
      constructor.
Qed.

(** X15.  The form of the first listing starts a run exactly when it is
    not waiting, neither field is empty, and each field that was last
    changed by a user edit has a length in range: 3 to 30 code units for
    the name, 10 to 150 for the description, bounds included.  A value set
    by a script is checked for emptiness only. *)
Theorem form_accepts_exactly_valid_fields (env : ProcessEnv) (c : Config) :
  requests (snd (step form env c Submit)) <> [] <->
  (isWaiting (ui c) = false /\
   name (ui c) <> [] /\ description (ui c) <> [] /\
   (name_edited (edited c) = true -> 3 <= strlen (name (ui c)) <= 30) /\
   (description_edited (edited c) = true ->
    10 <= strlen (description (ui c)) <= 150)).
Proof.
  split.
  - intros H.
    destruct (isWaiting (ui c)) eqn:Hw.
    + rewrite submit_refused_while_waiting in H by exact Hw.
      exfalso. apply H. reflexivity.
    + split; [reflexivity |].
      apply form_validity_spec.
      destruct (form_validity form (edited c) (ui c)) as [[f v] |] eqn:Hv;
        [| reflexivity].
      exfalso. apply H. cbn [step]. unfold submit, button_disabled.
      rewrite Hw. cbn [form disabled_while_waiting andb].
      change {| name_control := Some nft_name;
                description_control := Some nft_description;
                disabled_while_waiting := true |} with form.
      rewrite Hv. reflexivity.
  - intros (Hw & Hv). apply form_validity_spec in Hv.
    destruct (submit_starts_when_valid env c Hw Hv) as [E _]. rewrite E.
    discriminate.
Qed.


(* ================================================================== *)
(** ** The properties on the scenarios *)

Lemma stages_run_in_order_witness :
  messages (trace Scenario.happy (submitHandler Scenario.env Scenario.filled)) =
    [js "Generating Image..."; js "Uploading image to IPFS...";
     js "Uploading metadata..."; js "Upload complete!";
     js "Waiting for Mint..."; js ""]
  /\ outcome Scenario.happy (submitHandler Scenario.env Scenario.filled) =
     Returned tt.
Proof.
  apply (proj2 (@stages_run_in_order
                  Scenario.env Scenario.filled Scenario.happy (js "eyJhbGciOi")
                  (mkResponse 200) Scenario.jpeg
                  (JStr (js "Qm1mage")) (JStr (js "Qmeta"))
                  (BrowserProvider 31337) Scenario.contract Scenario.signer
                  Scenario.tx
                  ltac:(vm_compute; discriminate) ltac:(vm_compute; discriminate)
                  ltac:(vm_compute; reflexivity)
                  eq_refl eq_refl eq_refl eq_refl eq_refl eq_refl eq_refl
                  eq_refl eq_refl)).
Defined.

Lemma only_mint_errors_escape_witness :
  (provider Scenario.filled = None /\
   mkError (js "user rejected action") = nullish_read (js "null") (js "getSigner"))
  \/ on_getSigner Scenario.rejected_in_wallet =
     Rejected (mkError (js "user rejected action"))
  \/ (nft Scenario.filled = None /\
      mkError (js "user rejected action") = nullish_read (js "null") (js "connect"))
  \/ on_mint Scenario.rejected_in_wallet =
     Rejected (mkError (js "user rejected action"))
  \/ on_wait Scenario.rejected_in_wallet =
     Rejected (mkError (js "user rejected action")).
Proof.
  apply (@only_mint_errors_escape Scenario.env Scenario.filled
           Scenario.rejected_in_wallet (mkError (js "user rejected action"))).
  vm_compute. reflexivity.
Defined.




Lemma mint_called_iff_connected_witness :
  exists c s uri v,
    In (Mint c s uri v)
       (requests (trace Scenario.unauthorized
                        (submitHandler Scenario.env Scenario.filled))).
Proof.
  apply (proj2 (mint_called_iff_connected
                  Scenario.env Scenario.filled Scenario.unauthorized)).
  split; [vm_compute; discriminate |].
  split; [vm_compute; discriminate |].
  split; [eexists; reflexivity |].
  split; eexists; reflexivity.
Defined.

Lemma contract_is_set_last_witness :
  exists chain address chainId,
    Some 31337%N = Some chain /\
    provider (fst (fst (loadBlockchainData (Some 31337%N) Bootstrap.config
                                           Bootstrap.wallet initialState))) =
      Some (BrowserProvider chain) /\
    account (fst (fst (loadBlockchainData (Some 31337%N) Bootstrap.config
                                          Bootstrap.wallet initialState))) =
      Some address /\
    on_address Bootstrap.wallet = Fulfilled address /\
    on_network Bootstrap.wallet = Fulfilled chainId /\
    Bootstrap.config chainId = Some (contract_address Scenario.contract) /\
    snd (loadBlockchainData (Some 31337%N) Bootstrap.config
                            Bootstrap.wallet initialState) = Returned tt.
Proof.
  apply (@contract_is_set_last (Some 31337%N) Bootstrap.config Bootstrap.wallet
           initialState Scenario.contract);
    [reflexivity | vm_compute; reflexivity].
Defined.

Lemma failed_bootstrap_never_mints_witness :
  filter is_mint
    (requests (trace Scenario.happy (submitHandler Scenario.env Bootstrap.typed))) = []
  /\ filter is_fetch
       (requests (trace Scenario.happy (submitHandler Scenario.env Bootstrap.typed))) =
     [generation_request Scenario.env Bootstrap.typed]
  /\ (forall jwt,
         pinataJWT Scenario.env = Some jwt ->
         In (PinFile (bearer (JStr jwt)) (image_file (generated Scenario.happy)))
            (requests (trace Scenario.happy
                             (submitHandler Scenario.env Bootstrap.typed))))
  /\ exists e,
       outcome Scenario.happy (submitHandler Scenario.env Bootstrap.typed) = Thrown e.
Proof.
  apply (@failed_bootstrap_never_mints None Bootstrap.config Bootstrap.wallet
           initialState Scenario.env Scenario.happy Bootstrap.typed);
    [reflexivity | left; reflexivity | reflexivity | reflexivity
     | vm_compute; discriminate | vm_compute; discriminate].
Defined.

Lemma requests_carry_their_credential_witness :
  exists raw,
    REACT_APP_PINATA_JWT Scenario.env = Some raw /\
    js "Bearer eyJhbGciOi" = js "Bearer " ++ trim raw /\
    trim raw <> [] /\
    is_space (hd 32%N (trim raw)) = false /\
    is_space (last (trim raw) 32%N) = false.
Proof.
  apply (proj1 (proj2 (requests_carry_their_credential
                         Scenario.env Scenario.filled Scenario.happy))
               (js "Bearer eyJhbGciOi") (image_file (Some Scenario.jpeg))).
  vm_compute. right. right. left. reflexivity.
Defined.

Lemma query_body_determines_prompt_witness :
  {| inputs := js "`a lion`" |} = {| inputs := [96; 97; 32; 108; 105; 111; 110; 96]%N |}.
Proof.
  apply query_body_determines_prompt. vm_compute. reflexivity.
Defined.

Lemma deployment_is_logged_or_fails_witness :
  Script.exit_code (Script.script Bootstrap.deployed) 0 = 0%N.
Proof.
  apply (proj1 (proj1 (proj2 (deployment_is_logged_or_fails Bootstrap.deployed)))).
  exists (contract_address Scenario.contract).
  split; [reflexivity |]. vm_compute. do 4 right. left. reflexivity.
Defined.

Lemma bare_form_guard_witness :
  step bare_form Scenario.env initialConfig Submit =
  (initialConfig,
   prologue (ui initialConfig)
     ++ [Eff (Alert (js "Please provide a name and description"))]).
Proof.
  apply (proj1 (bare_form_guard Scenario.env initialConfig)).
  left. reflexivity.
Defined.


Lemma form_accepts_exactly_valid_fields_witness :
  requests (snd (step form Scenario.env
                      (fst (step form Scenario.env Scenario.ready
                                 (FillName (js "ab"))))
                      Submit)) <> [].
Proof.
  apply (proj2 (form_accepts_exactly_valid_fields
                  Scenario.env
                  (fst (step form Scenario.env Scenario.ready
                             (FillName (js "ab")))))).
  split; [reflexivity |].
  split; [vm_compute; discriminate |].
  split; [vm_compute; discriminate |].
  split; [vm_compute; discriminate | intros _; vm_compute; lia].
Defined.

